(** * subwaydata.nyc: command-line entry points, day identifiers and the
      journal exporter

    A shallow embedding of [src/subwaydatanyc.go] (the [subwaydatanyc]
    binary), of the older ETL entry point and of the exporter test that
    travel with [src/updater/export/export_test.go].

    Go values are modelled as follows: [int], [int64] and Unix instants are
    integers of [Z]; [string] is [string]; a [(value, error)] pair is a
    [result]; an [error] is its message; a nil-able pointer is an [option];
    a [map[string]string] is a [gmap string string].  Calls that leave the
    process (file system, clock, time-zone database, git, the ETL packages)
    are operations of a free monad, so that a run is a pure function of the
    answers the environment gives. *)

From Stdlib Require Import ZArith List String Ascii Lia Sorted.
From stdpp Require Import gmap strings list pretty.

Open Scope Z_scope.

(** ** Errors and results *)

Definition error : Type := string.

Inductive result (A : Type) : Type :=
| Ok (a : A)
| Err (e : error).
Arguments Ok {A} a.
Arguments Err {A} e.

(** [fmt.Errorf("<prefix>: %w", err)]: the message of the wrapping error. *)
Definition wrap (prefix : string) (err : error) : error :=
  prefix +:+ ": " +:+ err.

(** ** Bounded exhaustive checks

    [all_below f n] tests [f] on [0, 1, ..., n-1]; it is used to settle the
    few facts about calendar arithmetic and digit strings that range over a
    finite interval. *)

Fixpoint all_from (f : Z -> bool) (z : Z) (n : nat) : bool :=
  match n with
  | O => true
  | S k => if f z then all_from f (z + 1) k else false
  end.

Definition all_below (f : Z -> bool) (n : Z) : bool :=
  all_from f 0 (Z.to_nat n).

(** ** Decimal digits *)

Definition digitChar (d : Z) : ascii := ascii_of_nat (48 + Z.to_nat d).

Definition digitVal (c : ascii) : option Z :=
  let n := Z.of_nat (nat_of_ascii c) in
  if (48 <=? n) && (n <=? 57) then Some (n - 48) else None.

Fixpoint zeros (n : nat) : string :=
  match n with
  | O => EmptyString
  | S k => String "0" (zeros k)
  end.

(** [appendInt] of Go's [time] package: the decimal rendering of [x],
    zero-padded on the left to at least [width] digits, with a leading
    minus sign for negative numbers. *)
Definition appendInt (x : Z) (width : nat) : string :=
  let digits := pretty (Z.abs x) in
  (if x <? 0 then "-" else "") +:+
  zeros (width - String.length digits) +:+ digits.

(** The decimal value of a list of digit characters, most significant
    first; [None] when a character is not a decimal digit. *)
Fixpoint digitsVal (acc : Z) (cs : list ascii) : option Z :=
  match cs with
  | [] => Some acc
  | c :: cs' =>
      match digitVal c with
      | Some v => digitsVal (10 * acc + v) cs'
      | None => None
      end
  end.

(** ** The proleptic Gregorian calendar

    Go's [time] package counts days in the proleptic Gregorian calendar.
    A calendar date is held as its day number, the number of days since
    1970-01-01; the two conversions below are the usual era-based ones
    (an era is a 400-year cycle of 146097 days starting on March 1st). *)

Definition isLeap (year : Z) : bool :=
  (year mod 4 =? 0) && (negb (year mod 100 =? 0) || (year mod 400 =? 0)).

Definition daysIn (month year : Z) : Z :=
  if month =? 2 then (if isLeap year then 29 else 28)
  else if (month =? 4) || (month =? 6) || (month =? 9) || (month =? 11)
       then 30 else 31.

Record Civil : Type := mkCivil { cYear : Z; cMonth : Z; cDay : Z }.

Definition validCivil (c : Civil) : Prop :=
  1 <= cMonth c <= 12 /\ 1 <= cDay c <= daysIn (cMonth c) (cYear c).

Definition validCivilb (c : Civil) : bool :=
  (1 <=? cMonth c) && (cMonth c <=? 12) &&
  (1 <=? cDay c) && (cDay c <=? daysIn (cMonth c) (cYear c)).

(** Year of era, month and day of month of a day of era. *)
Definition yearOfEra (doe : Z) : Z :=
  (doe - doe / 1460 + doe / 36524 - doe / 146096) / 365.

Definition dayOfYear (doe : Z) : Z :=
  let yoe := yearOfEra doe in
  doe - (365 * yoe + yoe / 4 - yoe / 100).

Definition civilOfEra (era doe : Z) : Civil :=
  let yoe := yearOfEra doe in
  let doy := dayOfYear doe in
  let mp := (5 * doy + 2) / 153 in
  let d := doy - (153 * mp + 2) / 5 + 1 in
  let m := if mp <? 10 then mp + 3 else mp - 9 in
  mkCivil (yoe + era * 400 + (if m <=? 2 then 1 else 0)) m d.

Definition civilFromDays (n : Z) : Civil :=
  let z := n + 719468 in
  let era := z / 146097 in
  civilOfEra era (z - era * 146097).

Definition daysFromCivil (c : Civil) : Z :=
  let y := cYear c - (if cMonth c <=? 2 then 1 else 0) in
  let era := y / 400 in
  let yoe := y - era * 400 in
  let mp := if cMonth c <=? 2 then cMonth c + 9 else cMonth c - 3 in
  let doy := (153 * mp + 2) / 5 + cDay c - 1 in
  let doe := yoe * 365 + yoe / 4 - yoe / 100 + doy in
  era * 146097 + doe - 719468.

(** The layout [2006-01-02] applied to a calendar date. *)
Definition formatCivil (c : Civil) : string :=
  appendInt (cYear c) 4 +:+ "-" +:+ appendInt (cMonth c) 2 +:+ "-" +:+
  appendInt (cDay c) 2.

(** The fixed-width renderings [appendInt] produces for numbers that fit
    the width. *)
Definition digits2 (x : Z) : string :=
  String (digitChar (x / 10)) (String (digitChar (x mod 10)) EmptyString).

Definition digits4 (x : Z) : string :=
  String (digitChar (x / 1000))
    (String (digitChar (x / 100 mod 10))
       (String (digitChar (x / 10 mod 10))
          (String (digitChar (x mod 10)) EmptyString))).

(** The day of the era on which the year of era [k] starts. *)
Definition yearStart (k : Z) : Z := 365 * k + k / 4 - k / 100 + k / 400.

(** What is checked of every year of an era: the year of era computed
    for its first and for its last day is that year. *)
Definition yearCheck (j : Z) : bool :=
  (yearOfEra (yearStart j) =? j) && (yearOfEra (yearStart (j + 1) - 1) =? j).

(** ** Package [time] (the part the entry points use) *)

Module time.

(** A [*time.Location]: the offset from UTC, in seconds east, in force
    at a given Unix instant. *)
Record Location : Type := mkLocation { zoneOffset : Z -> Z }.

(** A [time.Time]: seconds and nanoseconds since the Unix epoch, and the
    location the instant is presented in.  Instants are integers of [Z];
    the wrap-around of [int64] seconds is outside the range any theorem
    below looks at. *)
Record Time : Type := mkTime { unixSec : Z; nsec : Z; loc : Location }.

(** A [time.Duration] is a number of nanoseconds. *)
Definition Duration : Type := Z.
Definition Second : Duration := 1000000000.
Definition Hour : Duration := 3600 * Second.

(** [time.Unix(sec, nsec)] yields a time in the local location, after
    bringing [nsec] into the range [0, 1e9). *)
Definition Unix (local : Location) (sec ns : Z) : Time :=
  if (ns <? 0) || (1000000000 <=? ns) then
    let n := Z.quot ns 1000000000 in
    let sec1 := sec + n in
    let ns1 := ns - n * 1000000000 in
    if ns1 <? 0 then mkTime (sec1 - 1) (ns1 + 1000000000) local
    else mkTime sec1 ns1 local
  else mkTime sec ns local.

(** [t.Unix()]. *)
Definition ToUnix (t : Time) : Z := unixSec t.

(** [t.In(loc)]: the same instant, presented in [l]. *)
Definition In (t : Time) (l : Location) : Time :=
  mkTime (unixSec t) (nsec t) l.

(** [t.Add(d)]. Go divides and takes remainders towards zero. *)
Definition Add (t : Time) (d : Duration) : Time :=
  let dsec := Z.quot d 1000000000 in
  let ns := nsec t + Z.rem d 1000000000 in
  if 1000000000 <=? ns then mkTime (unixSec t + dsec + 1) (ns - 1000000000) (loc t)
  else if ns <? 0 then mkTime (unixSec t + dsec - 1) (ns + 1000000000) (loc t)
  else mkTime (unixSec t + dsec) ns (loc t).

(** The day number of the calendar date [t] falls on in its location. *)
Definition localDay (t : Time) : Z :=
  (unixSec t + zoneOffset (loc t) (unixSec t)) / 86400.

(** [t.Format("2006-01-02")]. *)
Definition FormatDate (t : Time) : string :=
  formatCivil (civilFromDays (localDay t)).

End time.

(** ** Package [metadata]: days *)

Module metadata.

(** A [metadata.Day] is a calendar date, held as its day number;
    equality and order are those of the dates. *)
Definition Day : Type := Z.

(** Modelled from the spec: [metadata.ParseDay] is not part of the
    sources at hand.  The day identifier format is [YYYY-MM-DD]; a string
    that is not of that shape, or that names no calendar date, is an
    error value. *)
Definition ParseDay (s : string) : result Day :=
  match list_ascii_of_string s with
  | [y1; y2; y3; y4; h1; m1; m2; h2; d1; d2] =>
      if Ascii.eqb h1 "-" && Ascii.eqb h2 "-" then
        match digitsVal 0 [y1; y2; y3; y4],
              digitsVal 0 [m1; m2], digitsVal 0 [d1; d2] with
        | Some y, Some m, Some d =>
            let c := mkCivil y m d in
            if validCivilb c then Ok (daysFromCivil c)
            else Err ("parsing time " +:+ s +:+ ": day or month out of range")
        | _, _, _ => Err ("parsing time " +:+ s +:+ ": cannot parse as 2006-01-02")
        end
      else Err ("parsing time " +:+ s +:+ ": cannot parse as 2006-01-02")
  | _ => Err ("parsing time " +:+ s +:+ ": cannot parse as 2006-01-02")
  end.

(** Modelled from the spec: [Day.String], the [YYYY-MM-DD] identifier of
    a day. *)
Definition DayString (d : Day) : string := formatCivil (civilFromDays d).

(** What the spec calls a valid day identifier: the [YYYY-MM-DD]
    rendering of a calendar date of the years 0000 to 9999. *)
Definition validDayString (s : string) : Prop :=
  exists c : Civil,
    0 <= cYear c <= 9999 /\ validCivil c /\ s = formatCivil c.

(** *** The backlog scheduler *)

(** Modelled from the spec: the metadata types are not part of the sources
    at hand; only the fields [Day] and [FeedIDs] of a pending day are
    read there.  The ledger snapshot lists the feeds, each with the first
    day it has data for, and one record per processed day with the feeds
    processed for it. *)
Record Feed : Type := mkFeed { FeedID : string; FirstDay : Day }.

Record ProcessedDay : Type :=
  mkProcessedDay { ProcessedDay_Day : Day; ProcessedDay_Feeds : list string }.

Record Metadata : Type :=
  mkMetadata { Feeds : list Feed; ProcessedDays : list ProcessedDay }.

Record PendingDay : Type :=
  mkPendingDay { PendingDay_Day : Day; PendingDay_FeedIDs : list string }.

(** The feeds expected for a day: those whose data starts on or before it. *)
Definition expectedFeeds (m : Metadata) (d : Day) : list string :=
  map FeedID (List.filter (fun f => FirstDay f <=? d) (Feeds m)).

(** The feeds the ledger records as processed for a day. *)
Definition recordedFeeds (m : Metadata) (d : Day) : list string :=
  flat_map (fun r => if ProcessedDay_Day r =? d then ProcessedDay_Feeds r else [])
           (ProcessedDays m).

Definition missingFeeds (m : Metadata) (d : Day) : list string :=
  List.filter (fun id => negb (existsb (String.eqb id) (recordedFeeds m d)))
              (expectedFeeds m d).

(** The earliest feed-availability boundary, if any feed is known. *)
Definition firstDay (m : Metadata) : option Day :=
  match map FirstDay (Feeds m) with
  | [] => None
  | d :: ds => Some (fold_right Z.min d ds)
  end.

(** The [n] days before [d], the most recent first. *)
Fixpoint daysBefore (n : nat) (d : Day) : list Day :=
  match n with
  | O => []
  | S k => (d - 1) :: daysBefore k (d - 1)
  end.

Definition pendingFor (m : Metadata) (d : Day) : option PendingDay :=
  match missingFeeds m d with
  | [] => None
  | ids => Some (mkPendingDay d ids)
  end.

(** Modelled from the spec: [metadata.CalculatePendingDays] is not part of
    the sources at hand, only the call [CalculatePendingDays(m, d)] is.
    Every day from the earliest feed-availability boundary up to, and not
    including, the reference day that is not fully covered by the ledger,
    with the feeds it still misses, most recent day first. *)
Definition CalculatePendingDays (m : Metadata) (referenceDay : Day)
  : list PendingDay :=
  match firstDay m with
  | None => []
  | Some b => omap (pendingFor m) (daysBefore (Z.to_nat (referenceDay - b)) referenceDay)
  end.

(** Modelled from the spec: a day is fully covered only if every feed
    expected for it is in its record. *)
Definition fullyCovered (m : Metadata) (d : Day) : bool :=
  forallb (fun id => existsb (String.eqb id) (recordedFeeds m d))
          (expectedFeeds m d).

(** Modelled from the spec: which days are pending, said without the
    enumeration.  A day is pending when it is on or after the earliest
    feed-availability boundary, before the reference day, and not fully
    covered; a day on or after the reference day is never pending. *)
Definition pending (m : Metadata) (referenceDay d : Day) : bool :=
  match firstDay m with
  | None => false
  | Some b => (b <=? d) && (d <? referenceDay) && negb (fullyCovered m d)
  end.

End metadata.

(** ** Package [config]

    The ETL configuration; the fields are those the entry points read. *)

Module config.

Record Config : Type := mkConfig {
  GitUrl : string;
  GitUser : string;
  GitPassword : string;
  GitEmail : string;
  GitBranch : string;
  MetadataPath : string;
  Timezone : string;
}.

End config.

(** ** Package [journal] *)

Module journal.

Record StopTime : Type := mkStopTime {
  StopID : string;
  Track : option string;
  ArrivalTime : option time.Time;
  DepartureTime : option time.Time;
}.

Record Trip : Type := mkTrip {
  TripUID : string;
  TripID : string;
  RouteID : string;
  DirectionID : bool;
  VehicleID : string;
  StartTime : time.Time;
  StopTimes : list StopTime;
}.

End journal.

(** ** Package [export] and its test *)

Module export.

Import journal.

Definition nl : string := String (ascii_of_nat 10) EmptyString.

(** An archive as its reader sees it: the entries in order, each a header
    name and the bytes read up to the next header. *)
Record Entry : Type := mkEntry { Name : string; Body : string }.

Definition Archive : Type := list Entry.

Fixpoint join (sep : string) (fields : list string) : string :=
  match fields with
  | [] => EmptyString
  | [f] => f
  | f :: rest => f +:+ sep +:+ join sep rest
  end.

Definition csvRecord (fields : list string) : string := join "," fields +:+ nl.

Definition formatBool (b : bool) : string := if b then "true" else "false".

Definition formatUnix (t : time.Time) : string := pretty (time.ToUnix t).

Definition formatOptionalUnix (t : option time.Time) : string :=
  match t with
  | Some t => formatUnix t
  | None => EmptyString
  end.

Definition formatOptionalString (s : option string) : string :=
  match s with
  | Some s => s
  | None => EmptyString
  end.

Definition tripsCsvHeader : list string :=
  ["trip_uid"; "trip_id"; "route_id"; "direction_id"; "start_time"; "vehicle_id"].

Definition stopTimesCsvHeader : list string :=
  ["trip_uid"; "stop_id"; "track"; "arrival_time"; "departure_time"].

Definition tripRow (t : Trip) : list string :=
  [TripUID t; TripID t; RouteID t; formatBool (DirectionID t);
   formatUnix (StartTime t); VehicleID t].

Definition stopTimeRow (t : Trip) (st : StopTime) : list string :=
  [TripUID t; StopID st; formatOptionalString (Track st);
   formatOptionalUnix (ArrivalTime st); formatOptionalUnix (DepartureTime st)].

Definition concat (l : list string) : string :=
  fold_right String.append EmptyString l.

(** Modelled from the spec: [AsCsv] is not part of the sources at hand
    (its test is).  One archive with exactly the two entries
    [{prefix}trips.csv] and [{prefix}stop_times.csv]; a header line and one
    line per trip, respectively per stop of each trip, in input order;
    booleans as [true]/[false], times as Unix seconds, absent values as
    empty fields. *)
Definition AsCsv (trips : list Trip) (pfx : string) : result Archive :=
  Ok [ mkEntry (pfx +:+ "trips.csv")
         (concat (map csvRecord (tripsCsvHeader :: map tripRow trips)));
       mkEntry (pfx +:+ "stop_times.csv")
         (concat (map csvRecord
            (stopTimesCsvHeader ::
             flat_map (fun t => map (stopTimeRow t) (StopTimes t)) trips))) ].

(** [unTar] of the test: the entries read in order into a map from name
    to content, a later entry replacing an earlier one of the same name. *)
Definition unTar (b : Archive) : gmap string string :=
  foldl (fun result e => <[Name e := Body e]> result) ∅ b.

Definition ptr (t : time.Time) : option time.Time := Some t.

Definition sptr (s : string) : option string := Some s.

Section Fixture.

(** The location [time.Unix] presents its results in. *)
Variable Local : time.Location.

Definition trip : Trip := {|
  TripUID := "TripUID";
  TripID := "TripID";
  RouteID := "RouteID";
  DirectionID := true;
  VehicleID := "VehicleID";
  StartTime := time.Unix Local 100 0;
  StopTimes := [
    {| StopID := "StopID1";
       Track := sptr "Track1";
       ArrivalTime := None;
       DepartureTime := ptr (time.Unix Local 200 0) |};
    {| StopID := "StopID2";
       Track := None;
       ArrivalTime := ptr (time.Unix Local 300 0);
       DepartureTime := ptr (time.Unix Local 400 0) |};
    {| StopID := "StopID3";
       Track := sptr "Track3";
       ArrivalTime := ptr (time.Unix Local 500 0);
       DepartureTime := None |}
  ]
|}.

Definition expectedTripsCsv : string :=
  "trip_uid,trip_id,route_id,direction_id,start_time,vehicle_id" +:+ nl +:+
  "TripUID,TripID,RouteID,true,100,VehicleID" +:+ nl.

Definition expectedStopTimesCsv : string :=
  "trip_uid,stop_id,track,arrival_time,departure_time" +:+ nl +:+
  "TripUID,StopID1,Track1,,200" +:+ nl +:+
  "TripUID,StopID2,,300,400" +:+ nl +:+
  "TripUID,StopID3,Track3,500," +:+ nl.

(** [TestAsCsv]: the list of failures the test reports ([t.Fatalf] ends
    the test, [t.Errorf] records a failure and goes on). *)
Definition TestAsCsv : list string :=
  let pfx := "somePrefix_" in
  let trips := [trip] in
  match AsCsv trips pfx with
  | Err err => ["AsCsv function failed: " +:+ err]
  | Ok result =>
      let actualFiles := unTar result in
      (match actualFiles !! (pfx +:+ "trips.csv") with
       | None => ["Did not find trips file in tar file"]
       | Some tripsCsv =>
           if String.eqb tripsCsv expectedTripsCsv then []
           else ["Trips file actual:" +:+ nl +:+ tripsCsv +:+ nl +:+
                 "!= expected:" +:+ nl +:+ expectedTripsCsv +:+ nl]
       end) ++
      (match actualFiles !! (pfx +:+ "stop_times.csv") with
       | None => ["Did not find stop times file in tar file"]
       | Some stopTimesCsv =>
           if String.eqb stopTimesCsv expectedStopTimesCsv then []
           else ["Stop times file actual:" +:+ nl +:+ stopTimesCsv +:+ nl +:+
                 "!= expected:" +:+ nl +:+ expectedStopTimesCsv +:+ nl]
       end)
  end.

End Fixture.

End export.

(** ** Package [cli] (urfave/cli): flags and the context of an action *)

Module cli.

Inductive FlagValue : Type :=
| StringValue (s : string)
| IntValue (n : Z)
| BoolValue (b : bool)
| StringSliceValue (l : list string).

(** A flag declaration: its name, its aliases and the value it has when
    the command line does not set it. *)
Record Flag : Type := mkFlag {
  Name : string;
  Aliases : list string;
  Value : FlagValue;
  Required : bool;
}.

Definition StringFlag (name : string) (required : bool) : Flag :=
  mkFlag name [] (StringValue EmptyString) required.

Definition IntFlag (name : string) (aliases : list string) (value : Z) : Flag :=
  mkFlag name aliases (IntValue value) false.

Definition BoolFlag (name : string) (aliases : list string) : Flag :=
  mkFlag name aliases (BoolValue false) false.

Definition StringSliceFlag (name : string) : Flag :=
  mkFlag name [] (StringSliceValue []) false.

(** The context an action receives: the current value of every declared
    flag, the names of the flags the command line set, and the positional
    arguments. *)
Record Context : Type := mkContext {
  flagSet : gmap string FlagValue;
  visited : gset string;
  positional : list string;
}.

Definition defaults (flags : list Flag) : gmap string FlagValue :=
  list_to_map (map (fun f => (Name f, Value f)) flags).

(** The context of a command whose lineage declares [flags], when the
    command line sets the flags of [given] (under their names, whichever
    alias was typed) and leaves [args] as positional arguments. *)
Definition NewContext (flags : list Flag) (given : gmap string FlagValue)
    (args : list string) : Context :=
  mkContext (given ∪ defaults flags) (dom given) args.

Definition String (c : Context) (name : string) : string :=
  match flagSet c !! name with
  | Some (StringValue s) => s
  | _ => EmptyString
  end.

Definition Int (c : Context) (name : string) : Z :=
  match flagSet c !! name with
  | Some (IntValue n) => n
  | _ => 0
  end.

Definition Bool (c : Context) (name : string) : bool :=
  match flagSet c !! name with
  | Some (BoolValue b) => b
  | _ => false
  end.

Definition StringSlice (c : Context) (name : string) : list string :=
  match flagSet c !! name with
  | Some (StringSliceValue l) => l
  | _ => []
  end.

Definition IsSet (c : Context) (name : string) : bool :=
  bool_decide (name ∈ visited c).

Definition Args (c : Context) : list string := positional c.

(** What [app.Run(os.Args)] makes of the command line: either the library
    settles it without calling an action (help, a usage error), or it calls
    the action of a command with the flags the command line set and the
    positional arguments left over. *)
Inductive Parsed (Command : Type) : Type :=
| Settled (err : option error)
| Invoke (cmd : Command) (given : gmap string FlagValue) (args : list string).
Arguments Settled {Command} err.
Arguments Invoke {Command} cmd given args.

(** [args.Get(n)]: the empty string when there is no such argument. *)
Definition Get (args : list string) (n : nat) : string :=
  match args !! n with
  | Some a => a
  | None => EmptyString
  end.

End cli.

(** ** The outside world

    The types of the packages the entry points only pass around. *)

Class External : Type := {
  HoardConfig : Type;     (* hoard/config.Config *)
  StorageClient : Type;   (* etl/storage.Client *)
  GitSession : Type;      (* etl/git.Session *)
  Interval : Type;        (* etl/periodic.Interval *)
  Quote : string -> string;  (* the verb %q of fmt, strconv.Quote *)
}.

(** [context.Background()]. *)
Inductive GoContext : Type := Background.

Module etl.

(** [etl.BacklogOptions]; [Limit] is a [*int]. *)
Record BacklogOptions : Type := mkBacklogOptions {
  DryRun : bool;
  Concurrency : Z;
  Limit : option Z;
}.

End etl.

Section Effects.

Context `{ext : External}.

(** The calls that leave the entry points, with their arguments. *)
Inductive Op : Type :=
| OsReadFile (path : string)
| HoardNewConfig (b : string)
| JsonUnmarshalConfig (b : string)
| StorageNewClient (ec : config.Config)
| EtlDeleteDays (ctx : GoContext) (days : list metadata.Day) (dryRun : bool)
    (ec : config.Config) (sc : StorageClient)
| EtlRun (ctx : GoContext) (d : metadata.Day) (feedIDs : list string)
    (ec : config.Config) (hc : HoardConfig) (sc : StorageClient)
| EtlBacklog (ctx : GoContext) (ec : config.Config) (hc : HoardConfig)
    (sc : StorageClient) (opts : etl.BacklogOptions)
| PeriodicNewInterval (arg : string)
| PeriodicRun (ctx : GoContext) (ec : config.Config) (hc : HoardConfig)
    (sc : StorageClient) (intervals : list Interval)
| WebsiteRun (metadataUrl : string) (port : Z)
| Stdout (text : string)
| GitNewWritableSession (url user password email branch metadataPath : string)
| GitClose (s : GitSession)
| GitReadMetadata (s : GitSession)
| PipelineRun (s : GitSession) (d : metadata.Day) (feedIDs : list string)
    (ec : config.Config) (hc : HoardConfig)
| TimeLoadLocation (name : string)
| TimeNow.

(** What each call answers. *)
Definition Resp (o : Op) : Type :=
  match o with
  | OsReadFile _ => result string
  | HoardNewConfig _ => result HoardConfig
  | JsonUnmarshalConfig _ => result config.Config
  | StorageNewClient _ => result StorageClient
  | EtlDeleteDays _ _ _ _ _ => option error
  | EtlRun _ _ _ _ _ _ => option error
  | EtlBacklog _ _ _ _ _ => option error
  | PeriodicNewInterval _ => result Interval
  | PeriodicRun _ _ _ _ _ => unit
  | WebsiteRun _ _ => unit
  | Stdout _ => unit
  | GitNewWritableSession _ _ _ _ _ _ => result GitSession
  | GitClose _ => option error
  | GitReadMetadata _ => result metadata.Metadata
  | PipelineRun _ _ _ _ _ => option error
  | TimeLoadLocation _ => result time.Location
  | TimeNow => time.Time
  end.

(** A Go function body: it returns, panics, or makes a call and goes on
    with the answer. *)
Inductive Prog (A : Type) : Type :=
| Ret (a : A)
| Panic (msg : string)
| Do (o : Op) (k : Resp o -> Prog A).
Arguments Ret {A} a.
Arguments Panic {A} msg.
Arguments Do {A} o k.

Fixpoint bind {A B : Type} (p : Prog A) (f : A -> Prog B) : Prog B :=
  match p with
  | Ret a => f a
  | Panic msg => Panic msg
  | Do o k => Do o (fun r => bind (k r) f)
  end.

Definition call (o : Op) : Prog (Resp o) := Do o Ret.

(** [defer d] at the head of a body: [d] runs when the body returns and
    when it panics. *)
Fixpoint defer {A : Type} (d : Prog unit) (body : Prog A) : Prog A :=
  match body with
  | Ret a => bind d (fun _ => Ret a)
  | Panic msg => bind d (fun _ => Panic msg)
  | Do o k => Do o (fun r => defer d (k r))
  end.

(** [fmt.Println] of strings: the operands separated by spaces, and a
    newline. *)
Definition Println (operands : list string) : Prog unit :=
  call (Stdout (export.join " " operands +:+ export.nl)).

(** How a body ended. *)
Inductive Outcome (A : Type) : Type :=
| Returned (a : A)
| Panicked (msg : string).
Arguments Returned {A} a.
Arguments Panicked {A} msg.

(** A call together with the answer it got. *)
Definition Event : Type := sigT Resp.

Definition answered (o : Op) (r : Resp o) : Event := existT o r.

Definition opOf (e : Event) : Op := projT1 e.

(** A run: how it ended, the calls made, in order and with their answers,
    and the world left. *)
Record Run (W A : Type) : Type := mkRun {
  outcome : Outcome A;
  trace : list Event;
  final : W;
}.
Arguments mkRun {W A} outcome trace final.
Arguments outcome {W A} r.
Arguments trace {W A} r.
Arguments final {W A} r.

(** An environment answers every call and moves to a new state. *)
Definition Handler (W : Type) : Type := forall o : Op, W -> Resp o * W.

Fixpoint exec {W A : Type} (h : Handler W) (p : Prog A) (w : W) : Run W A :=
  match p with
  | Ret a => mkRun (Returned a) [] w
  | Panic msg => mkRun (Panicked msg) [] w
  | Do o k =>
      let r := exec h (k (fst (h o w))) (snd (h o w)) in
      mkRun (outcome r) (answered o (fst (h o w)) :: trace r) (final r)
  end.

End Effects.

Arguments Ret {ext A} a.
Arguments Panic {ext A} msg.
Arguments Do {ext A} o k.
Arguments Returned {A} a.
Arguments Panicked {A} msg.
Arguments mkRun {ext W A} outcome trace final.
Arguments outcome {ext W A} r.
Arguments trace {ext W A} r.
Arguments final {ext W A} r.

Notation "'let*' x ':=' p 'in' q" := (bind p (fun x => q))
  (at level 10, x name, p at level 100, q at level 200,
   format "'[v' 'let*'  x  ':='  p  'in' '/' q ']'").

(** ** [src/subwaydatanyc.go]: the [subwaydatanyc] binary *)

Module subwaydatanyc.

Section Main.

Context `{ext : External}.

Definition etlConfig : string := "etl-config".
Definition hoardConfig : string := "hoard-config".

Record session : Type := mkSession {
  ec : config.Config;
  hc : HoardConfig;
  sc : StorageClient;
}.

Definition newSession (c : cli.Context) : Prog (result session) :=
  let path := cli.String c hoardConfig in
  let* b := call (OsReadFile path) in
  match b with
  | Err err =>
      Ret (Err (wrap "failed to read the Hoard config file from disk" err))
  | Ok b =>
      let* hc := call (HoardNewConfig b) in
      match hc with
      | Err err => Ret (Err err)
      | Ok hc =>
          let path := cli.String c etlConfig in
          let* b := call (OsReadFile path) in
          match b with
          | Err err =>
              Ret (Err (wrap "failed to read the ETL config file from disk" err))
          | Ok b =>
              let* ec := call (JsonUnmarshalConfig b) in
              match ec with
              | Err err =>
                  Ret (Err (wrap "failed to parse the ETL config file" err))
              | Ok ec =>
                  let* sc := call (StorageNewClient ec) in
                  match sc with
                  | Err err => Ret (Err err)
                  | Ok sc => Ret (Ok (mkSession ec hc sc))
                  end
              end
          end
      end
  end.

(** The loop of the delete action over the values of [--day]. *)
Fixpoint parseDays (rawDays : list string) (days : list metadata.Day)
  : result (list metadata.Day) :=
  match rawDays with
  | [] => Ok days
  | rawDay :: rest =>
      match metadata.ParseDay rawDay with
      | Err err => Err (wrap "failed to parse start date" err)
      | Ok day => parseDays rest (days ++ [day])
      end
  end.

Definition deleteFlags : list cli.Flag :=
  [cli.StringSliceFlag "day"; cli.BoolFlag "yes" []].

Definition deleteAction (c : cli.Context) : Prog (option error) :=
  let* s := newSession c in
  match s with
  | Err err => Ret (Some err)
  | Ok session =>
      match parseDays (cli.StringSlice c "day") [] with
      | Err err => Ret (Some err)
      | Ok days =>
          let ctx := Background in
          call (EtlDeleteDays ctx days (negb (cli.Bool c "yes"))
                  (ec session) (sc session))
      end
  end.

Definition runAction (c : cli.Context) : Prog (option error) :=
  let* s := newSession c in
  match s with
  | Err err => Ret (Some err)
  | Ok session =>
      let args := cli.Args c in
      match length args with
      | 0%nat => Ret (Some "no day provided")
      | 1%nat =>
          match metadata.ParseDay (cli.Get args 0) with
          | Err err => Ret (Some err)
          | Ok d =>
              call (EtlRun Background d ["nycsubway_L"]
                      (ec session) (hc session) (sc session))
          end
      | _ => Ret (Some "too many command line arguments passed")
      end
  end.

Definition backlogFlags : list cli.Flag :=
  [cli.IntFlag "limit" ["l"] 0;
   cli.IntFlag "concurrency" ["c"] 1;
   cli.BoolFlag "dry-run" ["d"]].

Definition backlogOptions (c : cli.Context) : etl.BacklogOptions :=
  let opts := etl.mkBacklogOptions (cli.Bool c "dry-run")
                                   (cli.Int c "concurrency") None in
  if cli.IsSet c "limit" then
    let l := cli.Int c "limit" in
    etl.mkBacklogOptions (etl.DryRun opts) (etl.Concurrency opts) (Some l)
  else opts.

Definition backlogAction (c : cli.Context) : Prog (option error) :=
  let* s := newSession c in
  match s with
  | Err err => Ret (Some err)
  | Ok session =>
      let opts := backlogOptions c in
      call (EtlBacklog Background (ec session) (hc session) (sc session) opts)
  end.

(** The loop of the periodic action over its arguments. *)
Fixpoint parseIntervals (args : list string) (intervals : list Interval)
  : Prog (result (list Interval)) :=
  match args with
  | [] => Ret (Ok intervals)
  | arg :: rest =>
      let* interval := call (PeriodicNewInterval arg) in
      match interval with
      | Err err => Ret (Err (wrap "failed to parse interval" err))
      | Ok interval => parseIntervals rest (intervals ++ [interval])
      end
  end.

Definition periodicAction (c : cli.Context) : Prog (option error) :=
  let* s := newSession c in
  match s with
  | Err err => Ret (Some err)
  | Ok session =>
      let args := cli.Args c in
      if (length args =? 0)%nat then Ret (Some "no intervals provided")
      else
        let* intervals := parseIntervals args [] in
        match intervals with
        | Err err => Ret (Some err)
        | Ok intervals =>
            let ctx := Background in
            let* _ := call (PeriodicRun ctx (ec session) (hc session)
                              (sc session) intervals) in
            Ret None
        end
  end.

Definition etlFlags : list cli.Flag :=
  [cli.StringFlag hoardConfig true; cli.StringFlag etlConfig true].

Definition websiteFlags : list cli.Flag :=
  [cli.IntFlag "port" [] 8080; cli.StringFlag "metadata-url" true].

Definition websiteAction (c : cli.Context) : Prog (option error) :=
  let* _ := call (WebsiteRun (cli.String c "metadata-url") (cli.Int c "port")) in
  Ret None.

(** The commands that have an action: [etl delete], [etl run],
    [etl backlog], [etl periodic] and [website]. *)
Inductive Command : Type :=
| etl_delete
| etl_run
| etl_backlog
| etl_periodic
| website.

(** The flags a command sees: its own and those of the commands above. *)
Definition flagsOf (cmd : Command) : list cli.Flag :=
  match cmd with
  | etl_delete => deleteFlags ++ etlFlags
  | etl_run => etlFlags
  | etl_backlog => backlogFlags ++ etlFlags
  | etl_periodic => etlFlags
  | website => websiteFlags
  end.

Definition actionOf (cmd : Command) : cli.Context -> Prog (option error) :=
  match cmd with
  | etl_delete => deleteAction
  | etl_run => runAction
  | etl_backlog => backlogAction
  | etl_periodic => periodicAction
  | website => websiteAction
  end.

Definition appRun (a : cli.Parsed Command) : Prog (option error) :=
  match a with
  | cli.Settled err => Ret err
  | cli.Invoke cmd given args =>
      actionOf cmd (cli.NewContext (flagsOf cmd) given args)
  end.

(** [main]; the value returned is the exit status of the process
    ([os.Exit(1)], or 0 when [main] returns). *)
Definition main (a : cli.Parsed Command) : Prog Z :=
  let* err := appRun a in
  match err with
  | Some err =>
      let* _ := Println ["Error:"; err] in
      Ret 1
  | None => Ret 0
  end.

End Main.

End subwaydatanyc.

(** ** The older ETL entry point ([etl/etl.go], built as the [etl] binary) *)

Module etlmain.

Section Main.

Context `{ext : External}.

Definition hoardConfig : string := "hoard-config".
Definition etlConfig : string := "etl-config".

Definition appFlags : list cli.Flag :=
  [cli.StringFlag hoardConfig false; cli.StringFlag etlConfig false].

Definition getHoardConfig (c : cli.Context) : Prog (result HoardConfig) :=
  if negb (cli.IsSet c hoardConfig) then
    Ret (Err "a Hoard config must be provided")
  else
    let path := cli.String c hoardConfig in
    let* b := call (OsReadFile path) in
    match b with
    | Err err =>
        Ret (Err (wrap "failed to read the Hoard config file from disk" err))
    | Ok b => call (HoardNewConfig b)
    end.

Definition getEtlConfig (c : cli.Context) : Prog (result config.Config) :=
  if negb (cli.IsSet c etlConfig) then
    Ret (Err "an ETL config must be provided")
  else
    let path := cli.String c etlConfig in
    let* b := call (OsReadFile path) in
    match b with
    | Err err =>
        Ret (Err (wrap "failed to read the ETL config file from disk" err))
    | Ok b =>
        let* ec := call (JsonUnmarshalConfig b) in
        match ec with
        | Err err => Ret (Err (wrap "failed to parse the ETL config file" err))
        | Ok ec => Ret (Ok ec)
        end
    end.

Definition newGitSession (ec : config.Config) : Prog (result GitSession) :=
  call (GitNewWritableSession (config.GitUrl ec) (config.GitUser ec)
          (config.GitPassword ec) (config.GitEmail ec) (config.GitBranch ec)
          (config.MetadataPath ec)).

(** [defer gitSession.Close()]; what [Close] returns is dropped. *)
Definition closeSession (gitSession : GitSession) : Prog unit :=
  let* _ := call (GitClose gitSession) in
  Ret tt.

Definition runAction (c : cli.Context) : Prog (option error) :=
  let* hc := getHoardConfig c in
  match hc with
  | Err err => Ret (Some err)
  | Ok hc =>
      let* ec := getEtlConfig c in
      match ec with
      | Err err => Ret (Some err)
      | Ok ec =>
          let* gitSession := newGitSession ec in
          match gitSession with
          | Err err => Ret (Some err)
          | Ok gitSession =>
              defer (closeSession gitSession)
                (let args := cli.Args c in
                 match length args with
                 | 0%nat => Ret (Some "no day provided")
                 | 1%nat =>
                     match metadata.ParseDay (cli.Get args 0) with
                     | Err err => Ret (Some err)
                     | Ok d =>
                         call (PipelineRun gitSession d ["nycsubway_L"] ec hc)
                     end
                 | _ => Ret (Some "too many command line arguments passed")
                 end)
          end
      end
  end.

(** The zero value of [metadata.Day], what [d, _ := metadata.ParseDay(now)]
    leaves in [d] when the parse fails: January 1st of the year 1. *)
Definition zeroDay : metadata.Day := daysFromCivil (mkCivil 1 1 1).

(** The reference day of the backlog: the calendar date, in [l], of the
    instant five hours before [now], sent through its [2006-01-02]
    rendering and [metadata.ParseDay]. *)
Definition referenceDay (now : time.Time) (l : time.Location) : metadata.Day :=
  let now := time.FormatDate (time.Add (time.In now l) (-5 * time.Hour)) in
  match metadata.ParseDay now with
  | Ok d => d
  | Err _ => zeroDay
  end.

(** The verb [%s] on a slice of strings. *)
Definition formatStrings (l : list string) : string :=
  "[" +:+ export.join " " l +:+ "]".

(** The loop that lists the backlog: [remaining] iterations are left when
    the loop counter is [i]. *)
Fixpoint listPendingDays (pendingDays : list metadata.PendingDay)
    (remaining : nat) (i : Z) : Prog unit :=
  match remaining with
  | O => Ret tt
  | S rest =>
      if 20 <=? i then
        call (Stdout ("...and " +:+ pretty (Z.of_nat (length pendingDays) - 20)
                      +:+ " more days" +:+ export.nl))
      else
        let index := Z.of_nat (length pendingDays) - i - 1 in
        match (if index <? 0 then None else pendingDays !! Z.to_nat index) with
        | None => Panic "index out of range"
        | Some d =>
            let* _ :=
              call (Stdout ("- " +:+ metadata.DayString (metadata.PendingDay_Day d)
                            +:+ " (feeds: "
                            +:+ formatStrings (metadata.PendingDay_FeedIDs d)
                            +:+ ")" +:+ export.nl)) in
            listPendingDays pendingDays rest (i + 1)
        end
  end.

(** The end of the backlog action, from the test on the number of
    pending days on. *)
Definition reportBacklog (pendingDays : list metadata.PendingDay)
  : Prog (option error) :=
  if (length pendingDays =? 0)%nat then
    let* _ := Println ["No days in the backlog"] in
    Ret None
  else
    let* _ :=
      call (Stdout (pretty (Z.of_nat (length pendingDays))
                    +:+ " days in the backlog:" +:+ export.nl)) in
    let* _ := listPendingDays pendingDays (length pendingDays) 0 in
    Ret None.

Definition backlogAction (c : cli.Context) : Prog (option error) :=
  let* hc := getHoardConfig c in
  match hc with
  | Err err => Ret (Some err)
  | Ok hc =>
      let* ec := getEtlConfig c in
      match ec with
      | Err err => Ret (Some err)
      | Ok ec =>
          let* gitSession := newGitSession ec in
          match gitSession with
          | Err err => Ret (Some err)
          | Ok gitSession =>
              defer (closeSession gitSession)
                (let* m := call (GitReadMetadata gitSession) in
                 match m with
                 | Err err => Ret (Some err)
                 | Ok m =>
                     let* l := call (TimeLoadLocation (config.Timezone ec)) in
                     match l with
                     | Err err =>
                         Ret (Some (wrap ("unable to load timezone " +:+
                                          Quote (config.Timezone ec)) err))
                     | Ok l =>
                         let* now := call TimeNow in
                         let d := referenceDay now l in
                         let pendingDays := metadata.CalculatePendingDays m d in
                         reportBacklog pendingDays
                     end
                 end)
          end
      end
  end.

Inductive Command : Type :=
| run
| backlog.

Definition actionOf (cmd : Command) : cli.Context -> Prog (option error) :=
  match cmd with
  | run => runAction
  | backlog => backlogAction
  end.

Definition appRun (a : cli.Parsed Command) : Prog (option error) :=
  match a with
  | cli.Settled err => Ret err
  | cli.Invoke cmd given args =>
      actionOf cmd (cli.NewContext appFlags given args)
  end.

Definition main (a : cli.Parsed Command) : Prog Z :=
  let* err := appRun a in
  match err with
  | Some err =>
      let* _ := Println ["Error:"; err] in
      Ret 1
  | None => Ret 0
  end.

End Main.

End etlmain.

(** ** The purge manager *)

Module purge.





Section Handler.

Context `{ext : External}.


End Handler.

End purge.

(** ** Observing runs *)

Section Observers.

Context `{ext : External}.

Definition isStdout (e : Event) : bool :=
  match opOf e with Stdout _ => true | _ => false end.

Definition isTimeNow (e : Event) : bool :=
  match opOf e with TimeNow => true | _ => false end.

Definition isTimeLoadLocation (e : Event) : bool :=
  match opOf e with TimeLoadLocation _ => true | _ => false end.

(** The calls that set a command up: reading and parsing the
    configuration files, creating the storage client or the git session. *)
Definition isSetupOp (e : Event) : bool :=
  match opOf e with
  | OsReadFile _ | HoardNewConfig _ | JsonUnmarshalConfig _
  | StorageNewClient _ | GitNewWritableSession _ _ _ _ _ _ => true
  | _ => false
  end.


Definition isEtlRun (e : Event) : bool :=
  match opOf e with EtlRun _ _ _ _ _ _ => true | _ => false end.

Definition isPipelineRun (e : Event) : bool :=
  match opOf e with PipelineRun _ _ _ _ _ => true | _ => false end.

Definition isEtlDeleteDays (e : Event) : bool :=
  match opOf e with EtlDeleteDays _ _ _ _ _ => true | _ => false end.

Definition isEtlBacklog (e : Event) : bool :=
  match opOf e with EtlBacklog _ _ _ _ _ => true | _ => false end.

(** How often a run reads the clock, and the time-zone database. *)
Definition clockReads (t : list Event) : nat := length (List.filter isTimeNow t).

Definition zoneReads (t : list Event) : nat :=
  length (List.filter isTimeLoadLocation t).

(** What a run writes to standard output. *)
Definition stdoutOf (t : list Event) : string :=
  export.concat
    (map (fun e => match opOf e with Stdout text => text | _ => EmptyString end) t).

(** The answer an event carries, when it is the answer of the clock, of
    the time-zone database, of the ledger. *)
Definition answerOfTimeNow (e : Event) : option time.Time :=
  match e with
  | existT o r =>
      match o as o' return Resp o' -> option time.Time with
      | TimeNow => fun r => Some r
      | _ => fun _ => None
      end r
  end.

Definition answerOfTimeLoadLocation (e : Event)
  : option (string * result time.Location) :=
  match e with
  | existT o r =>
      match o as o' return Resp o' -> option (string * result time.Location) with
      | TimeLoadLocation name => fun r => Some (name, r)
      | _ => fun _ => None
      end r
  end.

Definition answerOfGitReadMetadata (e : Event)
  : option (GitSession * result metadata.Metadata) :=
  match e with
  | existT o r =>
      match o as o' return Resp o' -> option (GitSession * result metadata.Metadata) with
      | GitReadMetadata s => fun r => Some (s, r)
      | _ => fun _ => None
      end r
  end.

End Observers.

(** ** A small concrete environment

    Used to run the entry points on concrete command lines: files are
    looked up in a map, both configuration parsers accept everything, the
    ETL packages report success, the clock and the ledger are fixed. *)

Module sim.

Definition external : External := {|
  HoardConfig := string;
  StorageClient := string;
  GitSession := string;
  Interval := string;
  Quote := fun s => String (ascii_of_nat 34) s +:+ String (ascii_of_nat 34) EmptyString;
|}.

Definition hoard : @HoardConfig external := "hoard".
Definition client : @StorageClient external := "client".
Definition gitSession : @GitSession external := "session".

Record World : Type := mkWorld {
  files : gmap string string;
  metadataFile : metadata.Metadata;
  clock : time.Time;
}.

Definition configOf (b : string) : config.Config :=
  config.mkConfig "url" "user" "password" "email" "branch" "metadata.json" b.

(** Eastern Standard Time all year round. *)
Definition est : time.Location := time.mkLocation (fun _ => -18000).

Definition handler : @Handler external World :=
  fun o =>
    match o as o' return World -> @Resp external o' * World with
    | OsReadFile path => fun w =>
        (match files w !! path with
         | Some b => Ok b
         | None => Err ("open " +:+ path +:+ ": no such file or directory")
         end, w)
    | HoardNewConfig _ => fun w => (Ok hoard, w)
    | JsonUnmarshalConfig b => fun w => (Ok (configOf b), w)
    | StorageNewClient _ => fun w => (Ok client, w)
    | EtlDeleteDays _ _ _ _ _ => fun w => (None, w)
    | EtlRun _ _ _ _ _ _ => fun w => (None, w)
    | EtlBacklog _ _ _ _ _ => fun w => (None, w)
    | PeriodicNewInterval arg => fun w => (Ok arg, w)
    | PeriodicRun _ _ _ _ _ => fun w => (tt, w)
    | WebsiteRun _ _ => fun w => (tt, w)
    | Stdout _ => fun w => (tt, w)
    | GitNewWritableSession _ _ _ _ _ _ => fun w => (Ok gitSession, w)
    | GitClose _ => fun w => (None, w)
    | GitReadMetadata _ => fun w => (Ok (metadataFile w), w)
    | PipelineRun _ _ _ _ _ => fun w => (None, w)
    | TimeLoadLocation _ => fun w => (Ok est, w)
    | TimeNow => fun w => (clock w, w)
    end.

(** Both configuration files are present. *)
Definition configured : World :=
  mkWorld (<["hoard.yaml" := "hoard"]> (<["etl.json" := "America/New_York"]> ∅))
          (metadata.mkMetadata [metadata.mkFeed "nycsubway_L" 19000]
             [metadata.mkProcessedDay 19000 ["nycsubway_L"]])
          (time.mkTime 1641700000 0 est).

(** No file can be read. *)
Definition unconfigured : World :=
  mkWorld ∅ (metadata.mkMetadata [] []) (time.mkTime 1641700000 0 est).

Definition configFlags : gmap string cli.FlagValue :=
  <["hoard-config" := cli.StringValue "hoard.yaml"]>
    (<["etl-config" := cli.StringValue "etl.json"]> ∅).

(** Command lines: [etl run] with the given positional arguments,
    [etl delete] with the given values of [--day] and, when [yes] is true,
    with [--yes], and the older [backlog]. *)
Definition runContext (args : list string) : cli.Context :=
  cli.NewContext (subwaydatanyc.flagsOf subwaydatanyc.etl_run) configFlags args.

Definition deleteGiven (days : list string) (yes : bool)
  : gmap string cli.FlagValue :=
  let given := <["day" := cli.StringSliceValue days]> configFlags in
  if yes then <["yes" := cli.BoolValue true]> given else given.

Definition deleteContext (days : list string) (yes : bool) : cli.Context :=
  cli.NewContext (subwaydatanyc.flagsOf subwaydatanyc.etl_delete)
                 (deleteGiven days yes) [].

Definition backlogContext : cli.Context :=
  cli.NewContext etlmain.appFlags configFlags [].


End sim.

(** ** Further observations of runs *)

Section MoreObservers.

Context `{ext : External}.

Definition isGitClose (e : Event) : bool :=
  match opOf e with GitClose _ => true | _ => false end.

Definition isGitNewWritableSession (e : Event) : bool :=
  match opOf e with GitNewWritableSession _ _ _ _ _ _ => true | _ => false end.

Definition isPeriodicRun (e : Event) : bool :=
  match opOf e with PeriodicRun _ _ _ _ _ => true | _ => false end.

Definition isPeriodicNewInterval (e : Event) : bool :=
  match opOf e with PeriodicNewInterval _ => true | _ => false end.

(** The calls that do the work of a command: the ETL packages, the
    pipeline and the website; everything but setting up, reading the
    ledger and the clock, printing and closing. *)
Definition isWork (e : Event) : bool :=
  match opOf e with
  | EtlDeleteDays _ _ _ _ _ | EtlRun _ _ _ _ _ _ | EtlBacklog _ _ _ _ _
  | PeriodicRun _ _ _ _ _ | PipelineRun _ _ _ _ _ | WebsiteRun _ _ => true
  | _ => false
  end.

(** The calls that neither do the work of a command nor open or close a
    git session. *)
Definition isQuiet (e : Event) : bool :=
  match opOf e with
  | OsReadFile _ | HoardNewConfig _ | JsonUnmarshalConfig _
  | StorageNewClient _ | PeriodicNewInterval _ | Stdout _
  | GitReadMetadata _ | TimeLoadLocation _ | TimeNow => true
  | _ => false
  end.

(** The argument and the answer of a call of [periodic.NewInterval]. *)
Definition answerOfPeriodicNewInterval (e : Event)
  : option (string * result Interval) :=
  match e with
  | existT o r =>
      match o as o' return Resp o' -> option (string * result Interval) with
      | PeriodicNewInterval arg => fun r => Some (arg, r)
      | _ => fun _ => None
      end r
  end.

(** The answer of a call of [git.NewWritableSession]. *)
Definition answerOfGitNewWritableSession (e : Event) : option (result GitSession) :=
  match e with
  | existT o r =>
      match o as o' return Resp o' -> option (result GitSession) with
      | GitNewWritableSession _ _ _ _ _ _ => fun r => Some r
      | _ => fun _ => None
      end r
  end.

End MoreObservers.

(** ** What the older backlog command lists

    The text of the listing loop, said without the loop: a line per
    pending day, for the last twenty days of the slice at most, from the
    end of the slice backwards, and a closing line when there are more. *)

Definition pendingDayLine (d : metadata.PendingDay) : string :=
  "- " +:+ metadata.DayString (metadata.PendingDay_Day d) +:+ " (feeds: " +:+
  etlmain.formatStrings (metadata.PendingDay_FeedIDs d) +:+ ")" +:+ export.nl.

Definition moreDaysLine (pendingDays : list metadata.PendingDay) : string :=
  "...and " +:+ pretty (Z.of_nat (length pendingDays) - 20) +:+ " more days" +:+
  export.nl.

Definition backlogListing (pendingDays : list metadata.PendingDay) : string :=
  export.concat (map pendingDayLine (firstn 20 (rev pendingDays))) +:+
  (if 20 <? Z.of_nat (length pendingDays) then moreDaysLine pendingDays
   else EmptyString).

(** ** What the two commands of the older entry point share

    Both actions read the two configurations, open the git session, defer
    closing it, and go on; [withGitSession] is that frame, and the two
    bodies are what each action does inside it. *)

Section OlderFrame.

Context `{ext : External}.

Definition withGitSession (c : cli.Context)
    (body : HoardConfig -> config.Config -> GitSession -> Prog (option error))
  : Prog (option error) :=
  let* hc := etlmain.getHoardConfig c in
  match hc with
  | Err err => Ret (Some err)
  | Ok hc =>
      let* ec := etlmain.getEtlConfig c in
      match ec with
      | Err err => Ret (Some err)
      | Ok ec =>
          let* gitSession := etlmain.newGitSession ec in
          match gitSession with
          | Err err => Ret (Some err)
          | Ok gitSession =>
              defer (etlmain.closeSession gitSession) (body hc ec gitSession)
          end
      end
  end.

Definition runBody (c : cli.Context) (hc : HoardConfig) (ec : config.Config)
    (gitSession : GitSession) : Prog (option error) :=
  let args := cli.Args c in
  match length args with
  | 0%nat => Ret (Some "no day provided")
  | 1%nat =>
      match metadata.ParseDay (cli.Get args 0) with
      | Err err => Ret (Some err)
      | Ok d => call (PipelineRun gitSession d ["nycsubway_L"] ec hc)
      end
  | _ => Ret (Some "too many command line arguments passed")
  end.

Definition backlogBody (hc : HoardConfig) (ec : config.Config)
    (gitSession : GitSession) : Prog (option error) :=
  let* m := call (GitReadMetadata gitSession) in
  match m with
  | Err err => Ret (Some err)
  | Ok m =>
      let* l := call (TimeLoadLocation (config.Timezone ec)) in
      match l with
      | Err err =>
          Ret (Some (wrap ("unable to load timezone " +:+
                           Quote (config.Timezone ec)) err))
      | Ok l =>
          let* now := call TimeNow in
          let d := etlmain.referenceDay now l in
          let pendingDays := metadata.CalculatePendingDays m d in
          etlmain.reportBacklog pendingDays
      end
  end.

End OlderFrame.

(** * Properties *)

(** ** Auxiliary facts *)

Lemma all_from_spec (f : Z -> bool) (n : nat) :
  forall z, all_from f z n = true ->
  forall x, z <= x < z + Z.of_nat n -> f x = true.
Proof.
  induction n as [|k IH]; intros z H x Hx; [lia|].
  cbn [all_from] in H.
  destruct (f z) eqn:Hz; [|discriminate].
  destruct (Z.eq_dec x z) as [->|Hne]; [exact Hz|].
  apply (IH (z + 1)); [exact H|lia].
Qed.

Lemma all_below_spec (f : Z -> bool) (n : Z) :
  all_below f n = true -> forall x, 0 <= x < n -> f x = true.
Proof.
  intros H x Hx. apply (all_from_spec f (Z.to_nat n) 0 H).
  rewrite Z2Nat.id; lia.
Qed.

Section RunFacts.

Context `{ext : External}.
Context {W : Type} (h : Handler W).

Lemma exec_bind {A B : Type} (p : Prog A) (f : A -> Prog B) (w : W) :
  exec h (bind p f) w =
  match outcome (exec h p w) with
  | Returned a =>
      let r := exec h (f a) (final (exec h p w)) in
      mkRun (outcome r) (trace (exec h p w) ++ trace r) (final r)
  | Panicked msg =>
      mkRun (Panicked msg) (trace (exec h p w)) (final (exec h p w))
  end.
Proof.
  revert w. induction p as [a|msg|o k IH]; intros w; cbn.
  - destruct (exec h (f a) w); reflexivity.
  - reflexivity.
  - rewrite IH. destruct (outcome (exec h (k (h o w).1) (h o w).2)); reflexivity.
Qed.

Lemma exec_defer {A : Type} (d : Prog unit) (body : Prog A) (w : W) :
  exec h (defer d body) w =
  let rb := exec h body w in
  let rd := exec h d (final rb) in
  mkRun (match outcome rd with
         | Returned _ => outcome rb
         | Panicked msg => Panicked msg
         end)
        (trace rb ++ trace rd) (final rd).
Proof.
  revert w. induction body as [a|msg|o k IH]; intros w; cbn.
  - rewrite exec_bind. destruct (outcome (exec h d w)); cbn;
      rewrite ?app_nil_r; reflexivity.
  - rewrite exec_bind. destruct (outcome (exec h d w)); cbn;
      rewrite ?app_nil_r; reflexivity.
  - rewrite IH. reflexivity.
Qed.

End RunFacts.

(** Division and remainder by constants are part of the arithmetic [lia]
    is asked to decide. *)
Ltac Zify.zify_post_hook ::= Z.div_mod_to_equations.

(** ** Calendar arithmetic *)

Lemma yearOfEra_mono (x y : Z) :
  0 <= x <= y -> yearOfEra x <= yearOfEra y.
Proof.
  intros H. unfold yearOfEra. apply Z.div_le_mono; [lia | ].
  assert (x - x / 1460 <= y - y / 1460) by lia.
  assert (x / 36524 - x / 146096 <= y / 36524 - y / 146096) by lia.
  lia.
Qed.

Lemma yearCheck_all : all_below yearCheck 400 = true.
Proof. vm_compute. reflexivity. Qed.

Lemma yearCheck_holds (j : Z) :
  0 <= j <= 399 ->
  yearOfEra (yearStart j) = j /\ yearOfEra (yearStart (j + 1) - 1) = j.
Proof.
  intros H.
  pose proof (all_below_spec yearCheck 400 yearCheck_all j ltac:(lia)) as Hc.
  unfold yearCheck in Hc. apply andb_true_iff in Hc.
  destruct Hc as [H1 H2]. apply Z.eqb_eq in H1, H2. auto.
Qed.

Lemma yearOfEra_spec (doe : Z) :
  0 <= doe < 146097 ->
  0 <= yearOfEra doe <= 399 /\
  yearStart (yearOfEra doe) <= doe < yearStart (yearOfEra doe + 1).
Proof.
  intros H.
  assert (0 <= yearOfEra doe) as Hlo
    by (change 0 with (yearOfEra 0) at 1; apply yearOfEra_mono; lia).
  assert (yearOfEra doe <= 399) as Hhi
    by (change 399 with (yearOfEra 146096); apply yearOfEra_mono; lia).
  split; [lia | ]. remember (yearOfEra doe) as k eqn:Ek. split.
  - destruct (Z.eq_dec k 0) as [-> | Hk]; [unfold yearStart; lia | ].
    destruct (Z_lt_le_dec doe (yearStart k)) as [Hlt | ]; [exfalso | assumption].
    destruct (yearCheck_holds (k - 1) ltac:(lia)) as [_ He].
    replace (k - 1 + 1) with k in He by lia.
    pose proof (yearOfEra_mono doe (yearStart k - 1) ltac:(lia)) as Hm.
    lia.
  - destruct (Z.eq_dec k 399) as [-> | Hk]; [unfold yearStart; lia | ].
    destruct (Z_lt_le_dec doe (yearStart (k + 1))) as [ | Hge]; [assumption | exfalso].
    destruct (yearCheck_holds (k + 1) ltac:(lia)) as [Hs _].
    assert (0 <= yearStart (k + 1)) by (unfold yearStart; lia).
    pose proof (yearOfEra_mono (yearStart (k + 1)) doe ltac:(lia)) as Hm.
    lia.
Qed.

Lemma validCivilb_spec (c : Civil) : validCivilb c = true <-> validCivil c.
Proof. unfold validCivilb, validCivil. rewrite !andb_true_iff, !Z.leb_le. tauto. Qed.

Lemma isLeap_spec (y : Z) :
  isLeap y = true <-> (y mod 4 = 0 /\ (y mod 100 <> 0 \/ y mod 400 = 0)).
Proof.
  unfold isLeap. rewrite andb_true_iff, orb_true_iff, negb_true_iff.
  rewrite !Z.eqb_eq, Z.eqb_neq. tauto.
Qed.

(** Evaluates the comparisons of closed numbers in the goal. *)
Ltac eval_tests :=
  repeat (match goal with
          | |- context [Z.ltb ?a ?b] =>
              let v := eval vm_compute in (Z.ltb a b) in change (Z.ltb a b) with v
          | |- context [Z.leb ?a ?b] =>
              let v := eval vm_compute in (Z.leb a b) in change (Z.leb a b) with v
          | |- context [Z.eqb ?a ?b] =>
              let v := eval vm_compute in (Z.eqb a b) in change (Z.eqb a b) with v
          end; cbv iota).

(** The facts about a day of an era the conversions rest on. *)
Lemma era_facts (doe : Z) :
  0 <= doe < 146097 ->
  validCivil (civilOfEra 0 doe) /\
  daysFromCivil (civilOfEra 0 doe) = doe - 719468 /\
  0 <= cYear (civilOfEra 0 doe) /\
  (cYear (civilOfEra 0 doe) <= 399 \/ 146037 <= doe).
Proof.
  intros H. destruct (yearOfEra_spec doe H) as [Hk [Hs He]].
  unfold civilOfEra, dayOfYear. cbv zeta.
  remember (yearOfEra doe) as k eqn:Ek. clear Ek.
  unfold yearStart in Hs, He.
  remember (doe - (365 * k + k / 4 - k / 100)) as doy eqn:Edoy.
  assert (0 <= doy <= 365) as Hdoy by lia.
  assert (doy = 365 -> isLeap (k + 1) = true) as Hleap.
  { intros E. apply isLeap_spec. lia. }
  remember ((5 * doy + 2) / 153) as mp eqn:Emp.
  assert (mp = 0 \/ mp = 1 \/ mp = 2 \/ mp = 3 \/ mp = 4 \/ mp = 5 \/ mp = 6 \/
          mp = 7 \/ mp = 8 \/ mp = 9 \/ mp = 10 \/ mp = 11) as Hmp by lia.
  assert (153 * mp <= 5 * doy + 2 < 153 * mp + 153) as Hmp' by lia.
  assert (146037 <= doe \/ k <= 398 \/ doy < 306) as Hlast by lia.
  clear Emp Hs He H.
  rewrite Z.mul_0_l, Z.add_0_r.
  unfold validCivil, daysFromCivil, daysIn; cbn [cYear cMonth cDay].
  destruct (isLeap (k + 1)) eqn:Eleap.
  - clear Hleap.
    repeat (destruct Hmp as [-> | Hmp]; [eval_tests;
      rewrite ?Eleap; cbn [orb]; repeat split; lia | ]).
    subst mp. eval_tests. rewrite ?Eleap. cbn [orb]. repeat split; lia.
  - assert (doy <= 364) as Hdoy'
      by (destruct (Z.eq_dec doy 365); [discriminate Hleap; assumption | lia]).
    clear Hleap.
    repeat (destruct Hmp as [-> | Hmp]; [eval_tests;
      rewrite ?Eleap; cbn [orb]; repeat split; lia | ]).
    subst mp. eval_tests. rewrite ?Eleap. cbn [orb]. repeat split; lia.
Qed.

Lemma isLeap_period (y k : Z) : isLeap (y + k * 400) = isLeap y.
Proof.
  unfold isLeap.
  replace ((y + k * 400) mod 4) with (y mod 4)
    by (replace (y + k * 400) with (y + (k * 100) * 4) by lia;
        symmetry; apply Z_mod_plus_full).
  replace ((y + k * 400) mod 100) with (y mod 100)
    by (replace (y + k * 400) with (y + (k * 4) * 100) by lia;
        symmetry; apply Z_mod_plus_full).
  replace ((y + k * 400) mod 400) with (y mod 400)
    by (symmetry; apply Z_mod_plus_full).
  reflexivity.
Qed.

Lemma civilOfEra_shift (era doe : Z) :
  civilOfEra era doe =
  mkCivil (cYear (civilOfEra 0 doe) + era * 400)
          (cMonth (civilOfEra 0 doe)) (cDay (civilOfEra 0 doe)).
Proof. unfold civilOfEra; cbn [cYear cMonth cDay]. f_equal. lia. Qed.

Lemma validCivil_shift (y m d k : Z) :
  validCivil (mkCivil y m d) -> validCivil (mkCivil (y + k * 400) m d).
Proof.
  unfold validCivil, daysIn; cbn [cYear cMonth cDay].
  rewrite isLeap_period. trivial.
Qed.

Lemma daysFromCivil_shift (y m d k : Z) :
  daysFromCivil (mkCivil (y + k * 400) m d) =
  daysFromCivil (mkCivil y m d) + k * 146097.
Proof.
  unfold daysFromCivil; cbn [cYear cMonth cDay].
  set (c := if m <=? 2 then 1 else 0).
  replace (y + k * 400 - c) with (y - c + k * 400) by lia.
  rewrite Z.div_add by lia.
  replace (y - c + k * 400 - ((y - c) / 400 + k) * 400)
    with (y - c - (y - c) / 400 * 400) by lia.
  lia.
Qed.

Lemma dayOfEra_range (n : Z) :
  0 <= n + 719468 - (n + 719468) / 146097 * 146097 < 146097.
Proof. lia. Qed.

Lemma civilFromDays_valid (n : Z) : validCivil (civilFromDays n).
Proof.
  unfold civilFromDays. cbv zeta.
  destruct (era_facts _ (dayOfEra_range n)) as (Hv & _).
  rewrite civilOfEra_shift.
  destruct (civilOfEra 0 _) as [y0 m0 d0]. apply validCivil_shift. exact Hv.
Qed.

Lemma daysFromCivil_civilFromDays (n : Z) : daysFromCivil (civilFromDays n) = n.
Proof.
  unfold civilFromDays. cbv zeta.
  destruct (era_facts _ (dayOfEra_range n)) as (_ & Hd & _).
  rewrite civilOfEra_shift.
  destruct (civilOfEra 0 _) as [y0 m0 d0]; cbn [cYear cMonth cDay] in *.
  rewrite daysFromCivil_shift, Hd. lia.
Qed.

Lemma civilFromDays_year (n : Z) :
  -719468 <= n <= 2932896 -> 0 <= cYear (civilFromDays n) <= 9999.
Proof.
  intros Hn. unfold civilFromDays. cbv zeta.
  destruct (era_facts _ (dayOfEra_range n)) as (_ & _ & H0 & H1).
  rewrite civilOfEra_shift. cbn [cYear].
  assert (0 <= (n + 719468) / 146097 <= 24) as Hera by lia.
  remember ((n + 719468) / 146097) as era eqn:Eera.
  assert (cYear (civilOfEra 0 (n + 719468 - era * 146097)) <= 400) as Hy.
  { destruct (yearOfEra_spec _ (dayOfEra_range n)) as [Hyoe _].
    rewrite <- Eera in Hyoe.
    unfold civilOfEra. cbn [cYear]. destruct (_ <=? 2); lia. }
  destruct H1 as [H1 | H1]; [lia | ].
  assert (era <= 23 \/ era = 24) as [? | ->] by lia; lia.
Qed.


Lemma appendInt_4_all :
  all_below (fun y => String.eqb (appendInt y 4) (digits4 y)) 10000 = true.
Proof. vm_compute. reflexivity. Qed.

Lemma appendInt_2_all :
  all_below (fun x => String.eqb (appendInt x 2) (digits2 x)) 100 = true.
Proof. vm_compute. reflexivity. Qed.

Lemma appendInt_4 (y : Z) : 0 <= y <= 9999 -> appendInt y 4 = digits4 y.
Proof.
  intros H. apply String.eqb_eq.
  apply (all_below_spec _ 10000 appendInt_4_all y). lia.
Qed.

Lemma appendInt_2 (x : Z) : 0 <= x <= 99 -> appendInt x 2 = digits2 x.
Proof.
  intros H. apply String.eqb_eq.
  apply (all_below_spec _ 100 appendInt_2_all x). lia.
Qed.

Lemma digitVal_digitChar (k : Z) : 0 <= k <= 9 -> digitVal (digitChar k) = Some k.
Proof.
  intros H.
  assert (k = 0 \/ k = 1 \/ k = 2 \/ k = 3 \/ k = 4 \/ k = 5 \/ k = 6 \/
          k = 7 \/ k = 8 \/ k = 9) as Hk by lia.
  repeat (destruct Hk as [-> | Hk]; [reflexivity | ]). subst k. reflexivity.
Qed.

Lemma digitVal_inv (c : ascii) (v : Z) :
  digitVal c = Some v -> 0 <= v <= 9 /\ c = digitChar v.
Proof.
  unfold digitVal, digitChar. cbv zeta.
  destruct (_ && _) eqn:Hr; [ | discriminate].
  apply andb_true_iff in Hr. destruct Hr as [H1 H2].
  apply Z.leb_le in H1, H2. intros [= <-]. split; [lia | ].
  replace (48 + Z.to_nat (Z.of_nat (nat_of_ascii c) - 48))%nat
    with (nat_of_ascii c) by lia.
  symmetry. apply ascii_nat_embedding.
Qed.

Lemma daysIn_bound (m y : Z) : 28 <= daysIn m y <= 31.
Proof. unfold daysIn. repeat (destruct (_ =? _)); cbn; try destruct (isLeap y); lia. Qed.

Lemma formatCivil_digits (c : Civil) :
  0 <= cYear c <= 9999 -> validCivil c ->
  formatCivil c =
  digits4 (cYear c) +:+ "-" +:+ digits2 (cMonth c) +:+ "-" +:+ digits2 (cDay c).
Proof.
  intros Hy [Hm Hd]. pose proof (daysIn_bound (cMonth c) (cYear c)).
  unfold formatCivil.
  rewrite appendInt_4 by lia. rewrite !appendInt_2 by lia. reflexivity.
Qed.

Lemma digits_chars (y m d : Z) :
  list_ascii_of_string (digits4 y +:+ "-" +:+ digits2 m +:+ "-" +:+ digits2 d) =
  [digitChar (y / 1000); digitChar (y / 100 mod 10); digitChar (y / 10 mod 10);
   digitChar (y mod 10); "-"%char; digitChar (m / 10); digitChar (m mod 10);
   "-"%char; digitChar (d / 10); digitChar (d mod 10)].
Proof. reflexivity. Qed.

Lemma ParseDay_formatCivil (c : Civil) :
  0 <= cYear c <= 9999 -> validCivil c ->
  metadata.ParseDay (formatCivil c) = Ok (daysFromCivil c).
Proof.
  intros Hy Hv. rewrite formatCivil_digits by assumption.
  destruct Hv as [Hm Hd]. pose proof (daysIn_bound (cMonth c) (cYear c)).
  destruct c as [y m d]; cbn [cYear cMonth cDay] in *.
  unfold metadata.ParseDay. rewrite digits_chars.
  cbv beta iota. change (Ascii.eqb "-" "-" && Ascii.eqb "-" "-") with true.
  cbv iota. cbn [digitsVal].
  rewrite !digitVal_digitChar by lia.
  replace (10 * (10 * (10 * (10 * 0 + y / 1000) + y / 100 mod 10) + y / 10 mod 10) + y mod 10)
    with y by lia.
  replace (10 * (10 * 0 + m / 10) + m mod 10) with m by lia.
  replace (10 * (10 * 0 + d / 10) + d mod 10) with d by lia.
  assert (validCivilb (mkCivil y m d) = true) as ->; [ | reflexivity].
  apply validCivilb_spec. split; cbn [cYear cMonth cDay]; lia.
Qed.

Lemma ParseDay_Ok_inv (s : string) (n : metadata.Day) :
  metadata.ParseDay s = Ok n ->
  exists c : Civil,
    0 <= cYear c <= 9999 /\ validCivil c /\ s = formatCivil c /\
    n = daysFromCivil c.
Proof.
  unfold metadata.ParseDay.
  destruct (list_ascii_of_string s)
    as [|y1 [|y2 [|y3 [|y4 [|h1 [|m1 [|m2 [|h2 [|d1 [|d2 [|x l]]]]]]]]]]] eqn:Hs;
    try discriminate.
  destruct (Ascii.eqb h1 "-" && Ascii.eqb h2 "-") eqn:Hh; [ | discriminate].
  apply andb_true_iff in Hh. destruct Hh as [Hh1 Hh2].
  apply Ascii.eqb_eq in Hh1, Hh2. subst h1 h2.
  cbn [digitsVal].
  destruct (digitVal y1) as [a1|] eqn:E1; [ | discriminate].
  destruct (digitVal y2) as [a2|] eqn:E2; [ | discriminate].
  destruct (digitVal y3) as [a3|] eqn:E3; [ | discriminate].
  destruct (digitVal y4) as [a4|] eqn:E4; [ | discriminate].
  destruct (digitVal m1) as [b1|] eqn:E5; [ | discriminate].
  destruct (digitVal m2) as [b2|] eqn:E6; [ | discriminate].
  destruct (digitVal d1) as [c1|] eqn:E7; [ | discriminate].
  destruct (digitVal d2) as [c2|] eqn:E8; [ | discriminate].
  apply digitVal_inv in E1, E2, E3, E4, E5, E6, E7, E8.
  destruct E1 as [? ->], E2 as [? ->], E3 as [? ->], E4 as [? ->],
           E5 as [? ->], E6 as [? ->], E7 as [? ->], E8 as [? ->].
  set (y := 10 * (10 * (10 * (10 * 0 + a1) + a2) + a3) + a4).
  set (m := 10 * (10 * 0 + b1) + b2).
  set (d := 10 * (10 * 0 + c1) + c2).
  destruct (validCivilb (mkCivil y m d)) eqn:Hv; [ | discriminate].
  intros [= <-]. apply validCivilb_spec in Hv.
  exists (mkCivil y m d). cbn [cYear].
  assert (0 <= y <= 9999) as Hy by (subst y; lia).
  split; [exact Hy | ]. split; [exact Hv | ]. split; [ | reflexivity].
  rewrite formatCivil_digits by assumption. cbn [cYear cMonth cDay].
  rewrite <- (string_of_list_ascii_of_string s), Hs.
  unfold digits4, digits2.
  cbn [String.append string_of_list_ascii].
  replace (y / 1000) with a1 by (subst y; lia).
  replace (y / 100 mod 10) with a2 by (subst y; lia).
  replace (y / 10 mod 10) with a3 by (subst y; lia).
  replace (y mod 10) with a4 by (subst y; lia).
  replace (m / 10) with b1 by (subst m; lia).
  replace (m mod 10) with b2 by (subst m; lia).
  replace (d / 10) with c1 by (subst d; lia).
  replace (d mod 10) with c2 by (subst d; lia).
  reflexivity.
Qed.

Lemma ParseDay_invalid (s : string) :
  ~ metadata.validDayString s -> exists err, metadata.ParseDay s = Err err.
Proof.
  intros Hn. destruct (metadata.ParseDay s) as [n|err] eqn:Hp; [ | eauto].
  exfalso. apply Hn. destruct (ParseDay_Ok_inv s n Hp) as (c & Hy & Hv & Hs & _).
  exists c. auto.
Qed.

(** ** The exporter on the test fixture *)

(** C1. For the trip of the test, exported with the prefix [somePrefix_],
    the archive holds exactly the entries [somePrefix_trips.csv] and
    [somePrefix_stop_times.csv], in this order, with the expected contents:
    the header and the row [TripUID,TripID,RouteID,true,100,VehicleID],
    and the header and the three stop rows with blank fields for the absent
    track, arrival and departure; the test reports no failure. *)
Theorem AsCsv_fixture_exact (Local : time.Location) :
  export.AsCsv [export.trip Local] "somePrefix_" =
    Ok [export.mkEntry "somePrefix_trips.csv" export.expectedTripsCsv;
        export.mkEntry "somePrefix_stop_times.csv" export.expectedStopTimesCsv]
  /\ export.expectedTripsCsv =
       "trip_uid,trip_id,route_id,direction_id,start_time,vehicle_id" +:+ export.nl +:+
       "TripUID,TripID,RouteID,true,100,VehicleID" +:+ export.nl
  /\ export.expectedStopTimesCsv =
       "trip_uid,stop_id,track,arrival_time,departure_time" +:+ export.nl +:+
       "TripUID,StopID1,Track1,,200" +:+ export.nl +:+
       "TripUID,StopID2,,300,400" +:+ export.nl +:+
       "TripUID,StopID3,Track3,500," +:+ export.nl
  /\ export.TestAsCsv Local = [].
Proof.
  assert (export.AsCsv [export.trip Local] "somePrefix_" =
    Ok [export.mkEntry "somePrefix_trips.csv" export.expectedTripsCsv;
        export.mkEntry "somePrefix_stop_times.csv" export.expectedStopTimesCsv]) as H
    by reflexivity.
  split; [exact H | ]. split; [reflexivity | ]. split; [reflexivity | ].
  unfold export.TestAsCsv. cbv zeta. rewrite H.
  unfold export.unTar. cbn [foldl export.Name export.Body].
  change ("somePrefix_" +:+ "trips.csv") with "somePrefix_trips.csv".
  change ("somePrefix_" +:+ "stop_times.csv") with "somePrefix_stop_times.csv".
  rewrite lookup_insert_ne by discriminate.
  rewrite !lookup_insert_eq.
  rewrite !String.eqb_refl. reflexivity.
Qed.

(** ** The backlog scheduler *)

Lemma daysBefore_lt (n : nat) (d x : metadata.Day) :
  In x (metadata.daysBefore n d) -> x < d.
Proof.
  revert d. induction n as [|k IH]; intros d; cbn; [tauto | ].
  intros [<- | H]; [lia | ]. apply IH in H. lia.
Qed.

Lemma pendingFor_day (m : metadata.Metadata) (d : metadata.Day) (p : metadata.PendingDay) :
  metadata.pendingFor m d = Some p -> metadata.PendingDay_Day p = d.
Proof.
  unfold metadata.pendingFor. destruct (metadata.missingFeeds m d); [discriminate | ].
  intros [= <-]. reflexivity.
Qed.

Lemma pending_daysBefore_lt (m : metadata.Metadata) (n : nat) (d : metadata.Day)
    (p : metadata.PendingDay) :
  In p (omap (metadata.pendingFor m) (metadata.daysBefore n d)) ->
  metadata.PendingDay_Day p < d.
Proof.
  intros H. apply list_elem_of_In, list_elem_of_omap in H.
  destruct H as (x & Hx & Hp). apply list_elem_of_In, daysBefore_lt in Hx.
  apply pendingFor_day in Hp. lia.
Qed.

Lemma pending_daysBefore_sorted (m : metadata.Metadata) (n : nat) (d : metadata.Day) :
  StronglySorted (fun p q => metadata.PendingDay_Day q < metadata.PendingDay_Day p)
    (omap (metadata.pendingFor m) (metadata.daysBefore n d)).
Proof.
  revert d. induction n as [|k IH]; intros d; cbn; [constructor | ].
  destruct (metadata.pendingFor m (d - 1)) as [p|] eqn:Hp; [ | apply IH].
  constructor; [apply IH | ].
  apply Forall_forall. intros q Hq. apply list_elem_of_In, pending_daysBefore_lt in Hq.
  apply pendingFor_day in Hp. lia.
Qed.

Lemma daysBefore_In (n : nat) (d x : metadata.Day) :
  In x (metadata.daysBefore n d) <-> d - Z.of_nat n <= x < d.
Proof.
  revert d. induction n as [|k IH]; intros d; cbn [metadata.daysBefore In].
  - lia.
  - rewrite IH. lia.
Qed.

Lemma missingFeeds_fullyCovered (m : metadata.Metadata) (d : metadata.Day) :
  metadata.missingFeeds m d = [] <-> metadata.fullyCovered m d = true.
Proof.
  unfold metadata.missingFeeds, metadata.fullyCovered.
  induction (metadata.expectedFeeds m d) as [|id ids IH]; cbn [List.filter forallb].
  - tauto.
  - destruct (existsb (String.eqb id) (metadata.recordedFeeds m d));
      cbn [negb andb]; [exact IH | ].
    split; discriminate.
Qed.

Lemma pendingFor_Some (m : metadata.Metadata) (d : metadata.Day) :
  (exists p, metadata.pendingFor m d = Some p) <->
  metadata.fullyCovered m d = false.
Proof.
  pose proof (missingFeeds_fullyCovered m d) as H.
  unfold metadata.pendingFor.
  destruct (metadata.missingFeeds m d) as [|id ids];
    destruct (metadata.fullyCovered m d).
  - split; [intros [p Hp]; discriminate Hp | discriminate].
  - destruct H as [H _]. discriminate (H eq_refl).
  - destruct H as [_ H]. discriminate (H eq_refl).
  - split; [reflexivity | eauto].
Qed.

Lemma pending_days_In (m : metadata.Metadata) (l : list metadata.Day)
    (d : metadata.Day) :
  In d (map metadata.PendingDay_Day (omap (metadata.pendingFor m) l)) <->
  In d l /\ metadata.fullyCovered m d = false.
Proof.
  induction l as [|x l IH]; cbn [omap list_omap In map]; [tauto | ].
  destruct (metadata.pendingFor m x) as [p|] eqn:Hp.
  - cbn [map In]. rewrite IH, (pendingFor_day _ _ _ Hp).
    assert (metadata.fullyCovered m x = false) as Hx
      by (apply pendingFor_Some; eauto).
    split.
    + intros [<- | [Hin Hc]]; [split; [left; reflexivity | exact Hx] | tauto].
    + intros [[<- | Hin] Hc]; [left; reflexivity | right; tauto].
  - rewrite IH.
    assert (metadata.fullyCovered m x <> false) as Hx.
    { intros Hc. apply pendingFor_Some in Hc. destruct Hc as [p Hc].
      rewrite Hp in Hc. discriminate Hc. }
    split.
    + intros [Hin Hc]. split; [right; exact Hin | exact Hc].
    + intros [[<- | Hin] Hc]; [contradiction | tauto].
Qed.

Lemma CalculatePendingDays_In (m : metadata.Metadata)
    (referenceDay d : metadata.Day) :
  In d (map metadata.PendingDay_Day (metadata.CalculatePendingDays m referenceDay)) <->
  metadata.pending m referenceDay d = true.
Proof.
  unfold metadata.CalculatePendingDays, metadata.pending.
  destruct (metadata.firstDay m) as [b|]; [ | cbn; split; [tauto | discriminate]].
  rewrite pending_days_In, daysBefore_In, !andb_true_iff, negb_true_iff.
  rewrite Z.leb_le, Z.ltb_lt. split.
  - intros [Hr Hc]. split; [lia | exact Hc].
  - intros [Hr Hc]. split; [lia | exact Hc].
Qed.

(** C2. For every ledger snapshot and every reference day, the pending
    days come most recent first.  The days returned are exactly the
    pending days (those from the earliest feed-availability boundary up
    to, and not including, the reference day that are not fully covered),
    each day of the result is later than every day after it, and so the
    first element is the latest pending date: it is pending, and no
    pending day is later.  The result is empty only when no day is
    pending. *)
Theorem CalculatePendingDays_most_recent_first
    (m : metadata.Metadata) (referenceDay : metadata.Day) :
  StronglySorted (fun p q => metadata.PendingDay_Day q < metadata.PendingDay_Day p)
    (metadata.CalculatePendingDays m referenceDay)
  /\ (forall d,
        In d (map metadata.PendingDay_Day
                (metadata.CalculatePendingDays m referenceDay)) <->
        metadata.pending m referenceDay d = true)
  /\ match metadata.CalculatePendingDays m referenceDay with
     | [] => forall d, metadata.pending m referenceDay d = false
     | first :: rest =>
         metadata.pending m referenceDay (metadata.PendingDay_Day first) = true /\
         (forall d, metadata.pending m referenceDay d = true ->
                    d <= metadata.PendingDay_Day first) /\
         Forall (fun q => metadata.PendingDay_Day q < metadata.PendingDay_Day first) rest
     end.
Proof.
  assert (StronglySorted
            (fun p q => metadata.PendingDay_Day q < metadata.PendingDay_Day p)
            (metadata.CalculatePendingDays m referenceDay)) as H.
  { unfold metadata.CalculatePendingDays.
    destruct (metadata.firstDay m); [apply pending_daysBefore_sorted | constructor]. }
  pose proof (CalculatePendingDays_In m referenceDay) as Hin.
  split; [exact H | ]. split; [exact Hin | ].
  destruct (metadata.CalculatePendingDays m referenceDay) as [|first rest].
  - intros d. specialize (Hin d). cbn [map In] in Hin.
    destruct (metadata.pending m referenceDay d); [ | reflexivity].
    destruct Hin as [_ Hin]. destruct (Hin eq_refl).
  - apply StronglySorted_inv in H. destruct H as [_ Hrest].
    split; [apply Hin; left; reflexivity | ].
    split; [ | exact Hrest].
    intros d Hd. apply Hin in Hd. cbn [map In] in Hd.
    destruct Hd as [<- | Hd]; [lia | ].
    apply in_map_iff in Hd. destruct Hd as (q & <- & Hq).
    rewrite Forall_forall in Hrest. apply list_elem_of_In, Hrest in Hq. lia.
Qed.

(** ** Exit status *)

Section ExitStatus.

Context `{ext : External}.
Context {W : Type} (h : Handler W).

Lemma exit_status_of (p : Prog (option error)) (w : W) :
  let ra := exec h p w in
  let r := exec h (let* err := p in
                   match err with
                   | Some err => let* _ := Println ["Error:"; err] in Ret 1
                   | None => Ret 0
                   end) w in
  match outcome ra with
  | Returned (Some err) =>
      outcome r = Returned 1 /\
      trace r = trace ra ++ [answered (Stdout ("Error: " +:+ err +:+ export.nl)) tt]
  | Returned None => outcome r = Returned 0 /\ trace r = trace ra
  | Panicked msg => outcome r = Panicked msg
  end.
Proof.
  cbv zeta. rewrite exec_bind.
  destruct (outcome (exec h p w)) as [[err|]|msg]; cbn.
  - split; [reflexivity | ]. do 2 f_equal.
    destruct (h _ _) as [[] w']. reflexivity.
  - split; [reflexivity | ]. apply app_nil_r.
  - reflexivity.
Qed.

(** C5. Whenever the command run by [app.Run] returns an error, [main]
    prints the line [Error: <message>] and the exit status is 1; when it
    returns no error, [main] prints nothing more and the exit status is 0.
    This holds for the [subwaydatanyc] binary and for the older ETL
    binary. *)
Theorem main_exit_status (w : W) :
  (forall a : cli.Parsed subwaydatanyc.Command,
     let ra := exec h (subwaydatanyc.appRun a) w in
     let r := exec h (subwaydatanyc.main a) w in
     match outcome ra with
     | Returned (Some err) =>
         outcome r = Returned 1 /\
         trace r = trace ra ++ [answered (Stdout ("Error: " +:+ err +:+ export.nl)) tt]
     | Returned None => outcome r = Returned 0 /\ trace r = trace ra
     | Panicked msg => outcome r = Panicked msg
     end)
  /\ (forall a : cli.Parsed etlmain.Command,
     let ra := exec h (etlmain.appRun a) w in
     let r := exec h (etlmain.main a) w in
     match outcome ra with
     | Returned (Some err) =>
         outcome r = Returned 1 /\
         trace r = trace ra ++ [answered (Stdout ("Error: " +:+ err +:+ export.nl)) tt]
     | Returned None => outcome r = Returned 0 /\ trace r = trace ra
     | Panicked msg => outcome r = Panicked msg
     end).
Proof.
  split; intros a; cbv zeta.
  - pose proof (exit_status_of (subwaydatanyc.appRun a) w) as H. cbv zeta in H.
    unfold subwaydatanyc.main.
    destruct (outcome (exec h (subwaydatanyc.appRun a) w)) as [[err|]|msg];
      exact H.
  - pose proof (exit_status_of (etlmain.appRun a) w) as H. cbv zeta in H.
    unfold etlmain.main.
    destruct (outcome (exec h (etlmain.appRun a) w)) as [[err|]|msg];
      exact H.
Qed.

End ExitStatus.

(** ** The options of the backlog command *)

Lemma NewContext_lookup (flags : list cli.Flag) (given : gmap string cli.FlagValue)
    (args : list string) (name : string) :
  cli.flagSet (cli.NewContext flags given args) !! name =
  match given !! name with
  | Some v => Some v
  | None => cli.defaults flags !! name
  end.
Proof.
  unfold cli.NewContext; cbn [cli.flagSet].
  destruct (given !! name) as [v|] eqn:Hg.
  - apply lookup_union_Some_l. exact Hg.
  - rewrite lookup_union_r by exact Hg. reflexivity.
Qed.

Lemma NewContext_IsSet (flags : list cli.Flag) (given : gmap string cli.FlagValue)
    (args : list string) (name : string) :
  cli.IsSet (cli.NewContext flags given args) name =
  match given !! name with
  | Some _ => true
  | None => false
  end.
Proof.
  unfold cli.IsSet, cli.NewContext; cbn [cli.visited].
  destruct (given !! name) as [v|] eqn:Hg.
  - apply bool_decide_eq_true. apply elem_of_dom. eauto.
  - apply bool_decide_eq_false. apply not_elem_of_dom. exact Hg.
Qed.


(** ** The single-day and delete commands *)


Section Commands.

Context `{ext : External}.
Context {W : Type} (h : Handler W).

Lemma newSession_run (c : cli.Context) (w : W) :
  (exists res, outcome (exec h (subwaydatanyc.newSession c) w) = Returned res) /\
  Forall (fun e => isSetupOp e = true)
         (trace (exec h (subwaydatanyc.newSession c) w)).
Proof.
  unfold subwaydatanyc.newSession. cbn.
  repeat (match goal with
          | |- context [h ?o ?w] => destruct (h o w) as [[?|?] ?]; cbn
          end);
    (split; [eexists; reflexivity | repeat constructor]).
Qed.

Lemma setupOp_not_EtlRun (t : list Event) :
  Forall (fun e => isSetupOp e = true) t -> Forall (fun e => isEtlRun e = false) t.
Proof.
  intros H. eapply Forall_impl; [exact H | ]. intros [o r]. unfold isSetupOp, isEtlRun; cbn.
  destruct o; (discriminate || reflexivity).
Qed.

Lemma setupOp_not_EtlDeleteDays (t : list Event) :
  Forall (fun e => isSetupOp e = true) t ->
  Forall (fun e => isEtlDeleteDays e = false) t.
Proof.
  intros H. eapply Forall_impl; [exact H | ]. intros [o r]. unfold isSetupOp, isEtlDeleteDays; cbn.
  destruct o; (discriminate || reflexivity).
Qed.

(** The run of the single-day command, by the answer of [newSession] and
    the positional arguments. *)
Lemma runAction_run (c : cli.Context) (w : W) :
  let rs := exec h (subwaydatanyc.newSession c) w in
  let r := exec h (subwaydatanyc.runAction c) w in
  match outcome rs with
  | Returned (Err err) => outcome r = Returned (Some err) /\ trace r = trace rs
  | Returned (Ok session) =>
      match cli.Args c with
      | [] => outcome r = Returned (Some "no day provided") /\ trace r = trace rs
      | [s] =>
          match metadata.ParseDay s with
          | Err err => outcome r = Returned (Some err) /\ trace r = trace rs
          | Ok d =>
              let o := EtlRun Background d ["nycsubway_L"]
                         (subwaydatanyc.ec session) (subwaydatanyc.hc session)
                         (subwaydatanyc.sc session) in
              let a := h o (final rs) in
              outcome r = Returned (fst a) /\
              trace r = trace rs ++ [answered o (fst a)]
          end
      | _ :: _ :: _ =>
          outcome r = Returned (Some "too many command line arguments passed") /\
          trace r = trace rs
      end
  | Panicked msg => outcome r = Panicked msg
  end.
Proof.
  cbv zeta. unfold subwaydatanyc.runAction. rewrite exec_bind.
  destruct (outcome (exec h (subwaydatanyc.newSession c) w)) as [[session|err]|msg];
    cbn [outcome trace]; [ | rewrite app_nil_r; auto | reflexivity].
  destruct (cli.Args c) as [|s [|s' rest]]; cbn [length];
    [cbn; rewrite app_nil_r; auto | | cbn; rewrite app_nil_r; auto].
  change (cli.Get [s] 0) with s.
  destruct (metadata.ParseDay s) as [d|err]; cbn; [ | rewrite app_nil_r; auto].
  auto.
Qed.

Lemma parseDays_invalid (l : list string) (s : string) :
  In s l -> ~ metadata.validDayString s ->
  forall acc, exists err, subwaydatanyc.parseDays l acc = Err err.
Proof.
  intros Hin Hs. induction l as [|x l IH]; [destruct Hin | ].
  intros acc. cbn [subwaydatanyc.parseDays].
  destruct (metadata.ParseDay x) as [d|err] eqn:Hx; [ | eauto].
  destruct Hin as [-> | Hin]; [ | apply IH; exact Hin].
  destruct (ParseDay_invalid s Hs) as [err He]. congruence.
Qed.

(** The run of the delete command, by the answer of [newSession] and the
    values of [--day]. *)
Lemma deleteAction_run (c : cli.Context) (w : W) :
  let rs := exec h (subwaydatanyc.newSession c) w in
  let r := exec h (subwaydatanyc.deleteAction c) w in
  match outcome rs with
  | Returned (Err err) =>
      outcome r = Returned (Some err) /\ trace r = trace rs /\ final r = final rs
  | Returned (Ok session) =>
      match subwaydatanyc.parseDays (cli.StringSlice c "day") [] with
      | Err err =>
          outcome r = Returned (Some err) /\ trace r = trace rs /\
          final r = final rs
      | Ok days =>
          let o := EtlDeleteDays Background days (negb (cli.Bool c "yes"))
                     (subwaydatanyc.ec session) (subwaydatanyc.sc session) in
          let a := h o (final rs) in
          outcome r = Returned (fst a) /\
          trace r = trace rs ++ [answered o (fst a)] /\
          final r = snd a
      end
  | Panicked msg => outcome r = Panicked msg /\ final r = final rs
  end.
Proof.
  cbv zeta. unfold subwaydatanyc.deleteAction. rewrite exec_bind.
  destruct (outcome (exec h (subwaydatanyc.newSession c) w)) as [[session|err]|msg];
    cbn [outcome trace final]; [ | rewrite app_nil_r; auto | auto].
  destruct (subwaydatanyc.parseDays _ _) as [days|err]; cbn;
    [ | rewrite app_nil_r; auto].
  auto.
Qed.

(** C6. A day string that is not a valid [YYYY-MM-DD] date makes the
    command return an error, without a panic and without calling the
    operation behind it: [etl.Run] for a positional argument of the run
    command, [etl.DeleteDays] for a value of [--day] of the delete
    command. *)
Theorem invalid_day_is_reported (c : cli.Context) (w : W) (s : string) :
  ~ metadata.validDayString s ->
  (In s (cli.Args c) ->
     (exists err, outcome (exec h (subwaydatanyc.runAction c) w) = Returned (Some err)) /\
     Forall (fun e => isEtlRun e = false)
            (trace (exec h (subwaydatanyc.runAction c) w)))
  /\ (In s (cli.StringSlice c "day") ->
     (exists err, outcome (exec h (subwaydatanyc.deleteAction c) w) = Returned (Some err)) /\
     Forall (fun e => isEtlDeleteDays e = false)
            (trace (exec h (subwaydatanyc.deleteAction c) w))).
Proof.
  intros Hs.
  destruct (newSession_run c w) as [[res Hres] Htr]. split; intros Hin.
  - pose proof (runAction_run c w) as H. cbv zeta in H. rewrite Hres in H.
    apply setupOp_not_EtlRun in Htr.
    destruct res as [session|err]; [ | destruct H as [-> ->]; eauto].
    destruct (cli.Args c) as [|s1 [|s2 rest]]; [destruct Hin | | ].
    + destruct Hin as [-> | []].
      destruct (ParseDay_invalid s Hs) as [err He]. rewrite He in H.
      destruct H as [-> ->]; eauto.
    + destruct H as [-> ->]; eauto.
  - pose proof (deleteAction_run c w) as H. cbv zeta in H. rewrite Hres in H.
    apply setupOp_not_EtlDeleteDays in Htr.
    destruct res as [session|err]; [ | destruct H as (-> & -> & _); eauto].
    destruct (parseDays_invalid _ s Hin Hs []) as [err He]. rewrite He in H.
    destruct H as (-> & -> & _); eauto.
Qed.

End Commands.

Section Commands2.

Context `{ext : External}.
Context {W : Type} (h : Handler W).

Lemma getHoardConfig_run (c : cli.Context) (w : W) :
  (exists res, outcome (exec h (etlmain.getHoardConfig c) w) = Returned res) /\
  Forall (fun e => isSetupOp e = true) (trace (exec h (etlmain.getHoardConfig c) w)).
Proof.
  unfold etlmain.getHoardConfig.
  destruct (negb _); cbn.
  - split; [eexists; reflexivity | constructor].
  - repeat (match goal with
            | |- context [h ?o ?w] => destruct (h o w) as [[?|?] ?]; cbn
            end);
      (split; [eexists; reflexivity | repeat constructor]).
Qed.

Lemma getEtlConfig_run (c : cli.Context) (w : W) :
  (exists res, outcome (exec h (etlmain.getEtlConfig c) w) = Returned res) /\
  Forall (fun e => isSetupOp e = true) (trace (exec h (etlmain.getEtlConfig c) w)).
Proof.
  unfold etlmain.getEtlConfig.
  destruct (negb _); cbn.
  - split; [eexists; reflexivity | constructor].
  - repeat (match goal with
            | |- context [h ?o ?w] => destruct (h o w) as [[?|?] ?]; cbn
            end);
      (split; [eexists; reflexivity | repeat constructor]).
Qed.




(** C10, as the code has it. A run command with no positional argument,
    or with more than one, returns an error and never calls the pipeline.
    When the session is set up (both configuration files read and parsed,
    the storage client created) the error is [no day provided] for no
    argument and [too many command line arguments passed] for more than
    one; when setting up the session fails, the error returned is that of
    the session. *)
Theorem run_wrong_argument_count (c : cli.Context) (w : W) :
  length (cli.Args c) <> 1%nat ->
  let r := exec h (subwaydatanyc.runAction c) w in
  (exists err, outcome r = Returned (Some err))
  /\ Forall (fun e => isEtlRun e = false) (trace r)
  /\ (forall session,
        outcome (exec h (subwaydatanyc.newSession c) w) = Returned (Ok session) ->
        outcome r =
        Returned (Some (if (length (cli.Args c) =? 0)%nat then "no day provided"
                        else "too many command line arguments passed")))
  /\ (forall err,
        outcome (exec h (subwaydatanyc.newSession c) w) = Returned (Err err) ->
        outcome r = Returned (Some err)).
Proof.
  intros Hn. cbv zeta.
  pose proof (runAction_run h c w) as H. cbv zeta in H.
  destruct (newSession_run h c w) as [[res Hres] Htr].
  apply setupOp_not_EtlRun in Htr. rewrite Hres in H.
  assert (outcome (exec h (subwaydatanyc.runAction c) w) =
          Returned (Some match res with
                         | Err err => err
                         | Ok _ => if (length (cli.Args c) =? 0)%nat
                                   then "no day provided"
                                   else "too many command line arguments passed"
                         end)
          /\ trace (exec h (subwaydatanyc.runAction c) w) =
             trace (exec h (subwaydatanyc.newSession c) w)) as [Ho Ht].
  { destruct res as [session|err]; [ | exact H].
    destruct (cli.Args c) as [|s [|s' rest]]; cbn [length] in *;
      [exact H | congruence | exact H]. }
  rewrite Ho, Ht. split; [eauto | ]. split; [exact Htr | ].
  split; [intros session Hs | intros err Hs]; rewrite Hres in Hs;
    injection Hs as ->; reflexivity.
Qed.

End Commands2.

(** ** The delete command and the purge manager *)



Section Delete.

Context `{ext : External}.
Context {W : Type} (h : Handler W).



End Delete.

(** ** The backlog command of the older entry point *)

Lemma referenceDay_localDay (now : time.Time) (l : time.Location) :
  0 <= time.nsec now < 1000000000 ->
  let shifted := time.unixSec now - 5 * 3600 in
  let D := (shifted + time.zoneOffset l shifted) / 86400 in
  -719468 <= D <= 2932896 ->
  etlmain.referenceDay now l = D.
Proof.
  intros Hns shifted D HD. unfold etlmain.referenceDay.
  assert (time.Add (time.In now l) (-5 * time.Hour) =
          time.mkTime shifted (time.nsec now) l) as ->.
  { unfold time.Add, time.In; cbn [time.unixSec time.nsec time.loc].
    change (Z.quot (-5 * time.Hour) 1000000000) with (-18000).
    change (Z.rem (-5 * time.Hour) 1000000000) with 0.
    rewrite Z.add_0_r.
    destruct (1000000000 <=? time.nsec now) eqn:H1; [apply Z.leb_le in H1; lia | ].
    destruct (time.nsec now <? 0) eqn:H2; [apply Z.ltb_lt in H2; lia | ].
    f_equal; subst shifted; lia. }
  unfold time.FormatDate, time.localDay; cbn [time.unixSec time.loc].
  fold D.
  rewrite ParseDay_formatCivil.
  - apply daysFromCivil_civilFromDays.
  - apply civilFromDays_year. exact HD.
  - apply civilFromDays_valid.
Qed.

Section Backlog.

Context `{ext : External}.
Context {W : Type} (h : Handler W).

Lemma listPendingDays_run (pendingDays : list metadata.PendingDay)
    (remaining : nat) :
  forall (i : Z) (w : W),
    0 <= i -> Z.of_nat remaining + i <= Z.of_nat (length pendingDays) ->
    outcome (exec h (etlmain.listPendingDays pendingDays remaining i) w) = Returned tt /\
    Forall (fun e => isStdout e = true)
           (trace (exec h (etlmain.listPendingDays pendingDays remaining i) w)).
Proof.
  induction remaining as [|rest IH]; intros i w Hi Hlen;
    cbn [etlmain.listPendingDays].
  - cbn. split; [reflexivity | constructor].
  - destruct (20 <=? i).
    + cbn. split; [destruct (h _ _) as [[] ?]; reflexivity | repeat constructor].
    + destruct (lookup_lt_is_Some_2 pendingDays
                  (Z.to_nat (Z.of_nat (length pendingDays) - i - 1))) as [d Hd];
        [lia | ].
      cbv zeta.
      destruct (Z.ltb_spec (Z.of_nat (length pendingDays) - i - 1) 0); [lia | ].
      rewrite Hd. cbn [bind call exec outcome trace final].
      destruct (IH (i + 1) (snd (h (Stdout
                  ("- " +:+ metadata.DayString (metadata.PendingDay_Day d) +:+
                   " (feeds: " +:+
                   etlmain.formatStrings (metadata.PendingDay_FeedIDs d) +:+
                   ")" +:+ export.nl)) w))) as [Ho Ht]; [lia | lia | ].
      split; [exact Ho | ]. constructor; [reflexivity | exact Ht].
Qed.

Lemma reportBacklog_run (pendingDays : list metadata.PendingDay) (w : W) :
  outcome (exec h (etlmain.reportBacklog pendingDays) w) = Returned None /\
  Forall (fun e => isStdout e = true)
         (trace (exec h (etlmain.reportBacklog pendingDays) w)).
Proof.
  unfold etlmain.reportBacklog. destruct (length pendingDays =? 0)%nat.
  - cbn. split; [reflexivity | repeat constructor].
  - cbn [bind call exec outcome trace final Println].
    rewrite exec_bind.
    destruct (listPendingDays_run pendingDays (length pendingDays) 0
                (snd (h (Stdout (pretty (Z.of_nat (length pendingDays)) +:+
                                 " days in the backlog:" +:+ export.nl)) w)))
      as [Ho Ht]; [lia | lia | ].
    rewrite Ho. cbn. split; [reflexivity | ].
    constructor; [reflexivity | ]. rewrite app_nil_r. exact Ht.
Qed.

Lemma setupOp_not_TimeNow (t : list Event) :
  Forall (fun e => isSetupOp e = true) t -> Forall (fun e => isTimeNow e = false) t.
Proof.
  intros H. eapply Forall_impl; [exact H | ]. intros [o r].
  unfold isSetupOp, isTimeNow; cbn. destruct o; (discriminate || reflexivity).
Qed.

Lemma getEtlConfig_Ok (c : cli.Context) (w : W) (ec : config.Config) :
  outcome (exec h (etlmain.getEtlConfig c) w) = Returned (Ok ec) ->
  exists b, In (answered (JsonUnmarshalConfig b) (Ok ec))
               (trace (exec h (etlmain.getEtlConfig c) w)).
Proof.
  unfold etlmain.getEtlConfig. destruct (negb _); cbn; [discriminate | ].
  destruct (h (OsReadFile _) w) as [[b|err] w1]; cbn; [ | discriminate].
  destruct (h (JsonUnmarshalConfig b) w1) as [[ec'|err] w2]; cbn; [ | discriminate].
  intros [= ->]. exists b. right. left. reflexivity.
Qed.

(** The runs of the backlog command: either it returns an error before it
    reads the clock, or it reads the ledger, loads the configured time
    zone, reads the clock once and reports on the pending days of the
    reference day, and closes the git session. *)
Lemma backlogAction_run (c : cli.Context) (w : W) :
  ((exists err, outcome (exec h (etlmain.backlogAction c) w) = Returned (Some err)) /\
   Forall (fun e => isTimeNow e = false) (trace (exec h (etlmain.backlogAction c) w)))
  \/ exists pre gs m ec l now w1 x,
       Forall (fun e => isSetupOp e = true) pre /\
       (exists b, In (answered (JsonUnmarshalConfig b) (Ok ec)) pre) /\
       trace (exec h (etlmain.backlogAction c) w) =
         pre ++
         answered (GitReadMetadata gs) (Ok m) ::
         answered (TimeLoadLocation (config.Timezone ec)) (Ok l) ::
         answered TimeNow now ::
         trace (exec h (etlmain.reportBacklog
                          (metadata.CalculatePendingDays m (etlmain.referenceDay now l))) w1)
         ++ [answered (GitClose gs) x] /\
       outcome (exec h (etlmain.backlogAction c) w) = Returned None.
Proof.
  unfold etlmain.backlogAction. rewrite exec_bind.
  destruct (getHoardConfig_run h c w) as [[res ->] Ht1].
  pose proof (setupOp_not_TimeNow _ Ht1) as Hn1.
  destruct res as [hc|err]; cbn [outcome trace final exec];
    [ | left; split; [eauto | rewrite app_nil_r; exact Hn1]].
  set (w1 := final (exec h (etlmain.getHoardConfig c) w)).
  rewrite exec_bind.
  destruct (getEtlConfig_run h c w1) as [[res Hres] Ht2].
  pose proof (setupOp_not_TimeNow _ Ht2) as Hn2.
  pose proof (getEtlConfig_Ok c w1) as Hec.
  rewrite Hres in *.
  destruct res as [ec|err]; cbn [outcome trace final exec];
    [ | left; split; [eauto | rewrite app_nil_r; apply Forall_app; auto]].
  destruct (Hec ec eq_refl) as [b Hb]. clear Hec.
  set (w2 := final (exec h (etlmain.getEtlConfig c) w1)).
  unfold etlmain.newGitSession. cbn [bind call exec outcome trace final].
  destruct (h (GitNewWritableSession _ _ _ _ _ _) w2) as [[gs|err] w3] eqn:Hgit;
    cbn [fst snd exec outcome trace final];
    [ | left; split; [eauto | repeat (apply Forall_app; split; auto);
                               repeat constructor]].
  rewrite exec_defer. cbv zeta.
  unfold etlmain.closeSession. cbn [bind call exec outcome trace final].
  destruct (h (GitReadMetadata gs) w3) as [[m|err] w4] eqn:Hm;
    cbn [fst snd exec outcome trace final];
    [ | left; split; [eauto | repeat (apply Forall_app; split; auto);
                               repeat constructor]].
  destruct (h (TimeLoadLocation (config.Timezone ec)) w4) as [[l|err] w5] eqn:Hl;
    cbn [fst snd exec outcome trace final];
    [ | left; split; [eauto | repeat (apply Forall_app; split; auto);
                               repeat constructor]].
  destruct (h TimeNow w5) as [now w6] eqn:Hnow; cbn [fst snd].
  destruct (reportBacklog_run
              (metadata.CalculatePendingDays m (etlmain.referenceDay now l)) w6)
    as [Ho _].
  right.
  exists (trace (exec h (etlmain.getHoardConfig c) w) ++
          trace (exec h (etlmain.getEtlConfig c) w1) ++
          [answered (GitNewWritableSession (config.GitUrl ec) (config.GitUser ec)
                       (config.GitPassword ec) (config.GitEmail ec)
                       (config.GitBranch ec) (config.MetadataPath ec)) (Ok gs)]).
  exists gs, m, ec, l, now, w6.
  eexists.
  split; [repeat (apply Forall_app; split; auto); repeat constructor | ].
  split; [exists b; apply in_or_app; right; apply in_or_app; left; exact Hb | ].
  split; [ | rewrite Ho; reflexivity].
  rewrite <- !app_assoc. cbn [app]. reflexivity.
Qed.

End Backlog.

Section BacklogClaims.

Context `{ext : External}.
Context {W : Type} (h : Handler W).

Lemma append_assoc (s a b : string) : (s +:+ a) +:+ b = s +:+ (a +:+ b).
Proof.
  induction s as [|ch s IH]; [reflexivity | ].
  change (String ch ((s +:+ a) +:+ b) = String ch (s +:+ (a +:+ b))).
  rewrite IH. reflexivity.
Qed.

Lemma concat_app (l1 l2 : list string) :
  export.concat (l1 ++ l2) = export.concat l1 +:+ export.concat l2.
Proof.
  unfold export.concat. induction l1 as [|s l1 IH]; cbn; [reflexivity | ].
  rewrite IH. symmetry. apply append_assoc.
Qed.

Lemma stdoutOf_app (t1 t2 : list Event) :
  stdoutOf (t1 ++ t2) = stdoutOf t1 +:+ stdoutOf t2.
Proof. unfold stdoutOf. rewrite map_app. apply concat_app. Qed.

Lemma stdoutOf_setup (t : list Event) :
  Forall (fun e => isSetupOp e = true) t -> stdoutOf t = EmptyString.
Proof.
  induction 1 as [|[o r] t He Ht IH]; [reflexivity | ].
  unfold stdoutOf in *. cbn [map export.concat fold_right]. 
  unfold export.concat in IH. rewrite IH.
  unfold isSetupOp in He; cbn in He. cbn.
  destruct o; (discriminate He || reflexivity).
Qed.

Lemma Forall_In_eq {A : Type} (P : A -> Prop) (l : list A) (x : A) :
  Forall P l -> In x l -> P x.
Proof. intros H Hin. apply (proj1 (List.Forall_forall P l) H x Hin). Qed.

Lemma clockReads_app (t1 t2 : list Event) :
  clockReads (t1 ++ t2) = (clockReads t1 + clockReads t2)%nat.
Proof. unfold clockReads. rewrite List.filter_app, length_app. reflexivity. Qed.

Lemma zoneReads_app (t1 t2 : list Event) :
  zoneReads (t1 ++ t2) = (zoneReads t1 + zoneReads t2)%nat.
Proof. unfold zoneReads. rewrite List.filter_app, length_app. reflexivity. Qed.

Lemma no_reads (t : list Event) :
  Forall (fun e => isSetupOp e = true \/ isStdout e = true) t ->
  clockReads t = 0%nat /\ zoneReads t = 0%nat.
Proof.
  induction 1 as [|[o r] t He Ht [IH1 IH2]]; [split; reflexivity | ].
  unfold clockReads, zoneReads in *. cbn [List.filter].
  unfold isSetupOp, isStdout, isTimeNow, isTimeLoadLocation in *;
    cbn [opOf projT1] in *.
  destruct o; cbn in *; auto; destruct He; discriminate.
Qed.

(** The reference day and the answers behind it, read off a run of the
    backlog command that got as far as the clock. *)
Lemma backlogAction_answers (c : cli.Context) (w : W)
    (gs : GitSession) (m : metadata.Metadata) (tz : string)
    (l : time.Location) (now : time.Time) :
  In (answered (GitReadMetadata gs) (Ok m)) (trace (exec h (etlmain.backlogAction c) w)) ->
  In (answered (TimeLoadLocation tz) (Ok l)) (trace (exec h (etlmain.backlogAction c) w)) ->
  In (answered TimeNow now) (trace (exec h (etlmain.backlogAction c) w)) ->
  exists pre ec w1 x,
    Forall (fun e => isSetupOp e = true) pre /\
    (exists b, In (answered (JsonUnmarshalConfig b) (Ok ec)) pre) /\
    tz = config.Timezone ec /\
    trace (exec h (etlmain.backlogAction c) w) =
      pre ++
      answered (GitReadMetadata gs) (Ok m) ::
      answered (TimeLoadLocation tz) (Ok l) ::
      answered TimeNow now ::
      trace (exec h (etlmain.reportBacklog
                       (metadata.CalculatePendingDays m (etlmain.referenceDay now l))) w1)
      ++ [answered (GitClose gs) x] /\
    outcome (exec h (etlmain.backlogAction c) w) = Returned None.
Proof.
  intros Hm Hl Hnow.
  destruct (backlogAction_run h c w)
    as [[_ Hno] | (pre & gs0 & m0 & ec & l0 & now0 & w1 & x & Hpre & Hec & Ht & Ho)].
  { exfalso. pose proof (Forall_In_eq _ _ _ Hno Hnow) as H. discriminate H. }
  destruct (reportBacklog_run h
              (metadata.CalculatePendingDays m0 (etlmain.referenceDay now0 l0)) w1)
    as [_ Hrep].
  rewrite Ht in Hm, Hl, Hnow.
  assert (forall e : Event,
            isSetupOp e = false -> isStdout e = false ->
            In e (pre ++
                  answered (GitReadMetadata gs0) (Ok m0) ::
                  answered (TimeLoadLocation (config.Timezone ec)) (Ok l0) ::
                  answered TimeNow now0 ::
                  trace (exec h (etlmain.reportBacklog
                    (metadata.CalculatePendingDays m0 (etlmain.referenceDay now0 l0))) w1)
                  ++ [answered (GitClose gs0) x]) ->
            answered (GitReadMetadata gs0) (Ok m0) = e \/
            answered (TimeLoadLocation (config.Timezone ec)) (Ok l0) = e \/
            answered TimeNow now0 = e \/ answered (GitClose gs0) x = e) as Hcases.
  { intros e Hs Ho' Hin. apply in_app_or in Hin. destruct Hin as [Hin | Hin].
    { pose proof (Forall_In_eq _ _ _ Hpre Hin) as H. cbv beta in H. congruence. }
    destruct Hin as [H | [H | [H | Hin]]]; auto.
    apply in_app_or in Hin. destruct Hin as [Hin | [H | []]]; auto.
    pose proof (Forall_In_eq _ _ _ Hrep Hin) as H. cbv beta in H. congruence. }
  apply Hcases in Hm, Hl, Hnow; try reflexivity.
  assert (gs0 = gs /\ m0 = m) as [-> ->].
  { destruct Hm as [H | [H | [H | H]]];
      apply (f_equal answerOfGitReadMetadata) in H; cbn in H;
      (discriminate H || (injection H as -> ->; auto)). }
  assert (config.Timezone ec = tz /\ l0 = l) as [Htz ->].
  { destruct Hl as [H | [H | [H | H]]];
      apply (f_equal answerOfTimeLoadLocation) in H; cbn in H;
      (discriminate H || (injection H as -> ->; auto)). }
  assert (now0 = now) as ->.
  { destruct Hnow as [H | [H | [H | H]]];
      apply (f_equal answerOfTimeNow) in H; cbn in H;
      (discriminate H || (injection H as ->; auto)). }
  exists pre, ec, w1, x. rewrite <- Htz. auto.
Qed.

(** C3. In a run of the backlog command that reads the ledger, loads a
    time zone and reads the clock, the zone loaded is the configured one,
    the reference day is the calendar date, in that zone, of the instant
    five hours before the clock's answer, and the pending days reported are
    those computed, by a function of the ledger and that day alone, for it.
    The run reads the clock once and the time-zone database once: the
    scheduler reads neither. *)
Theorem backlog_reference_day (c : cli.Context) (w : W)
    (gs : GitSession) (m : metadata.Metadata) (tz : string)
    (l : time.Location) (now : time.Time) :
  let r := exec h (etlmain.backlogAction c) w in
  let shifted := time.unixSec now - 5 * 3600 in
  let D := (shifted + time.zoneOffset l shifted) / 86400 in
  In (answered (GitReadMetadata gs) (Ok m)) (trace r) ->
  In (answered (TimeLoadLocation tz) (Ok l)) (trace r) ->
  In (answered TimeNow now) (trace r) ->
  0 <= time.nsec now < 1000000000 ->
  -719468 <= D <= 2932896 ->
  etlmain.referenceDay now l = D
  /\ (exists b ec, In (answered (JsonUnmarshalConfig b) (Ok ec)) (trace r) /\
                   tz = config.Timezone ec)
  /\ (exists pre w1 x,
        trace r =
          pre ++
          answered (GitReadMetadata gs) (Ok m) ::
          answered (TimeLoadLocation tz) (Ok l) ::
          answered TimeNow now ::
          trace (exec h (etlmain.reportBacklog (metadata.CalculatePendingDays m D)) w1)
          ++ [answered (GitClose gs) x])
  /\ clockReads (trace r) = 1%nat
  /\ zoneReads (trace r) = 1%nat.
Proof.
  intros r shifted D Hm Hl Hnow Hns HD. subst r.
  pose proof (referenceDay_localDay now l Hns HD) as Href. fold shifted D in Href.
  destruct (backlogAction_answers c w gs m tz l now Hm Hl Hnow)
    as (pre & ec & w1 & x & Hpre & [b Hb] & Htz & Ht & _).
  rewrite Href in Ht.
  destruct (reportBacklog_run h (metadata.CalculatePendingDays m D) w1) as [_ Hrep].
  split; [exact Href | ].
  split; [exists b, ec; split; [rewrite Ht; apply in_or_app; left; exact Hb | exact Htz] | ].
  split; [exists pre, w1, x; exact Ht | ].
  destruct (no_reads pre) as [Hc1 Hz1];
    [eapply Forall_impl; [exact Hpre | ]; cbv beta; auto | ].
  destruct (no_reads _ (Forall_impl _ _ _ Hrep (fun e H => or_intror H)))
    as [Hc2 Hz2].
  rewrite Ht.
  rewrite clockReads_app, zoneReads_app, Hc1, Hz1.
  change (clockReads (?a :: ?b :: ?e :: ?t)) with (S (clockReads t)).
  change (zoneReads (?a :: ?b :: ?e :: ?t)) with (S (zoneReads t)).
  rewrite clockReads_app, zoneReads_app, Hc2, Hz2. split; reflexivity.
Qed.

(** C8. When the pending days computed for the ledger and the reference
    day of a run are none, the backlog command returns no error and what
    it prints is the line [No days in the backlog]. *)
Theorem empty_backlog_succeeds (c : cli.Context) (w : W)
    (gs : GitSession) (m : metadata.Metadata) (tz : string)
    (l : time.Location) (now : time.Time) :
  let r := exec h (etlmain.backlogAction c) w in
  In (answered (GitReadMetadata gs) (Ok m)) (trace r) ->
  In (answered (TimeLoadLocation tz) (Ok l)) (trace r) ->
  In (answered TimeNow now) (trace r) ->
  metadata.CalculatePendingDays m (etlmain.referenceDay now l) = [] ->
  outcome r = Returned None /\
  stdoutOf (trace r) = "No days in the backlog" +:+ export.nl.
Proof.
  intros r Hm Hl Hnow Hempty. subst r.
  destruct (backlogAction_answers c w gs m tz l now Hm Hl Hnow)
    as (pre & ec & w1 & x & Hpre & _ & _ & Ht & Ho).
  split; [exact Ho | ].
  rewrite Ht, Hempty, stdoutOf_app, (stdoutOf_setup pre Hpre).
  reflexivity.
Qed.

End BacklogClaims.

(** ** The theorems at concrete command lines *)

Lemma validDayString_ParseDay (s : string) :
  metadata.validDayString s -> exists n, metadata.ParseDay s = Ok n.
Proof.
  intros (c & Hy & Hv & ->). exists (daysFromCivil c).
  apply ParseDay_formatCivil; assumption.
Qed.

Ltac in_trace := vm_compute; repeat (first [left; reflexivity | right]).

Lemma backlog_reference_day_witness :
  let r := exec sim.handler (etlmain.backlogAction sim.backlogContext) sim.configured in
  let m := sim.metadataFile sim.configured in
  let now := sim.clock sim.configured in
  (In (@answered sim.external (GitReadMetadata sim.gitSession) (Ok m)) (trace r) /\
   In (@answered sim.external (TimeLoadLocation "America/New_York") (Ok sim.est)) (trace r) /\
   In (@answered sim.external TimeNow now) (trace r) /\
   0 <= time.nsec now < 1000000000 /\
   -719468 <= 19000 <= 2932896)
  /\ etlmain.referenceDay now sim.est = 19000
  /\ clockReads (trace r) = 1%nat
  /\ zoneReads (trace r) = 1%nat.
Proof.
  cbv zeta.
  assert (In (@answered sim.external (GitReadMetadata sim.gitSession) (Ok (sim.metadataFile sim.configured)))
             (trace (exec sim.handler (etlmain.backlogAction sim.backlogContext)
                          sim.configured))) as Hm by in_trace.
  assert (In (@answered sim.external (TimeLoadLocation "America/New_York") (Ok sim.est))
             (trace (exec sim.handler (etlmain.backlogAction sim.backlogContext)
                          sim.configured))) as Hl by in_trace.
  assert (In (@answered sim.external TimeNow (sim.clock sim.configured))
             (trace (exec sim.handler (etlmain.backlogAction sim.backlogContext)
                          sim.configured))) as Hnow by in_trace.
  assert (0 <= time.nsec (sim.clock sim.configured) < 1000000000) as Hns
    by (cbn; lia).
  assert (-719468 <= 19000 <= 2932896) as HD by lia.
  split; [repeat split; assumption || lia | ].
  destruct (@backlog_reference_day sim.external sim.World sim.handler
              sim.backlogContext sim.configured sim.gitSession
              (sim.metadataFile sim.configured) "America/New_York" sim.est
              (sim.clock sim.configured) Hm Hl Hnow Hns HD)
    as (Href & _ & _ & Hc & Hz).
  split; [exact Href | split; [exact Hc | exact Hz]].
Defined.

Lemma empty_backlog_succeeds_witness :
  let r := exec sim.handler (etlmain.backlogAction sim.backlogContext) sim.configured in
  let m := sim.metadataFile sim.configured in
  let now := sim.clock sim.configured in
  (In (@answered sim.external (GitReadMetadata sim.gitSession) (Ok m)) (trace r) /\
   In (@answered sim.external (TimeLoadLocation "America/New_York") (Ok sim.est)) (trace r) /\
   In (@answered sim.external TimeNow now) (trace r) /\
   metadata.CalculatePendingDays m (etlmain.referenceDay now sim.est) = [])
  /\ outcome r = Returned None
  /\ stdoutOf (trace r) = "No days in the backlog" +:+ export.nl.
Proof.
  cbv zeta.
  assert (In (@answered sim.external (GitReadMetadata sim.gitSession) (Ok (sim.metadataFile sim.configured)))
             (trace (exec sim.handler (etlmain.backlogAction sim.backlogContext)
                          sim.configured))) as Hm by in_trace.
  assert (In (@answered sim.external (TimeLoadLocation "America/New_York") (Ok sim.est))
             (trace (exec sim.handler (etlmain.backlogAction sim.backlogContext)
                          sim.configured))) as Hl by in_trace.
  assert (In (@answered sim.external TimeNow (sim.clock sim.configured))
             (trace (exec sim.handler (etlmain.backlogAction sim.backlogContext)
                          sim.configured))) as Hnow by in_trace.
  assert (metadata.CalculatePendingDays (sim.metadataFile sim.configured)
            (etlmain.referenceDay (sim.clock sim.configured) sim.est) = []) as He
    by (vm_compute; reflexivity).
  split; [repeat split; assumption | ].
  exact (@empty_backlog_succeeds sim.external sim.World sim.handler
           sim.backlogContext sim.configured sim.gitSession
           (sim.metadataFile sim.configured) "America/New_York" sim.est
           (sim.clock sim.configured) Hm Hl Hnow He).
Defined.

Lemma invalid_day_is_reported_witness :
  ~ metadata.validDayString "2022-13-40"
  /\ In "2022-13-40" (cli.Args (sim.runContext ["2022-13-40"]))
  /\ In "2022-13-40" (cli.StringSlice (sim.deleteContext ["2022-01-08"; "2022-13-40"] true) "day")
  /\ (exists err,
        outcome (exec sim.handler
                   (subwaydatanyc.runAction (sim.runContext ["2022-13-40"]))
                   sim.configured) = Returned (Some err))
  /\ (exists err,
        outcome (exec sim.handler
                   (subwaydatanyc.deleteAction
                      (sim.deleteContext ["2022-01-08"; "2022-13-40"] true))
                   sim.configured) = Returned (Some err)).
Proof.
  assert (~ metadata.validDayString "2022-13-40") as Hinv.
  { intros Hv. destruct (validDayString_ParseDay _ Hv) as [n Hn].
    vm_compute in Hn. discriminate Hn. }
  assert (In "2022-13-40" (cli.Args (sim.runContext ["2022-13-40"]))) as Hrun
    by (left; reflexivity).
  assert (In "2022-13-40"
             (cli.StringSlice (sim.deleteContext ["2022-01-08"; "2022-13-40"] true) "day"))
    as Hdel by (vm_compute; right; left; reflexivity).
  split; [exact Hinv | ]. split; [exact Hrun | ]. split; [exact Hdel | ].
  split.
  - exact (proj1 (proj1 (@invalid_day_is_reported sim.external sim.World sim.handler
                    (sim.runContext ["2022-13-40"]) sim.configured "2022-13-40" Hinv)
                  Hrun)).
  - exact (proj1 (proj2 (@invalid_day_is_reported sim.external sim.World sim.handler
                    (sim.deleteContext ["2022-01-08"; "2022-13-40"] true)
                    sim.configured "2022-13-40" Hinv)
                  Hdel)).
Defined.


Lemma run_wrong_argument_count_witness :
  let c := sim.runContext ["2022-01-08"; "2022-01-09"] in
  length (cli.Args c) <> 1%nat
  /\ (exists err,
        outcome (exec sim.handler (subwaydatanyc.runAction c) sim.configured) =
        Returned (Some err))
  /\ Forall (fun e => isEtlRun e = false)
            (trace (exec sim.handler (subwaydatanyc.runAction c) sim.configured)).
Proof.
  cbv zeta.
  assert (length (cli.Args (sim.runContext ["2022-01-08"; "2022-01-09"])) <> 1%nat)
    as Hn by (cbn; lia).
  split; [exact Hn | ].
  destruct (@run_wrong_argument_count sim.external sim.World sim.handler
              (sim.runContext ["2022-01-08"; "2022-01-09"]) sim.configured Hn)
    as (He & Ht & _).
  split; [exact He | exact Ht].
Defined.

(** The claim of C10 fails when the session cannot be set up: with no
    positional argument and a Hoard configuration file that cannot be read,
    the run command returns the error of the session, not
    [no day provided]. *)
Lemma run_no_argument_session_error :
  length (cli.Args (sim.runContext [])) = 0%nat
  /\ outcome (exec sim.handler (subwaydatanyc.runAction (sim.runContext []))
                   sim.unconfigured) =
     Returned (Some "failed to read the Hoard config file from disk: open hoard.yaml: no such file or directory")
  /\ outcome (exec sim.handler (subwaydatanyc.runAction (sim.runContext []))
                   sim.unconfigured) <>
     Returned (Some "no day provided").
Proof.
  split; [reflexivity | ].
  assert (outcome (exec sim.handler (subwaydatanyc.runAction (sim.runContext []))
                        sim.unconfigured) =
          Returned (Some "failed to read the Hoard config file from disk: open hoard.yaml: no such file or directory"))
    as H by (vm_compute; reflexivity).
  split; [exact H | ]. rewrite H. discriminate.
Qed.


(** * Further properties of the entry points *)

(** * Further properties of the entry points *)

(** ** Setting up the session *)

Section Session.

Context `{ext : External}.
Context {W : Type} (h : Handler W).

(** X1. When [newSession] returns a session it has made exactly five
    calls, in this order: it read the file named by [--hoard-config] and
    parsed what it read as the Hoard configuration, read the file named by
    [--etl-config] and parsed what it read as the ETL configuration, and
    created the storage client from that configuration; the session holds
    the three results. *)
Theorem newSession_success_trace (c : cli.Context) (w : W)
    (session : subwaydatanyc.session) :
  outcome (exec h (subwaydatanyc.newSession c) w) = Returned (Ok session) ->
  exists b1 b2,
    trace (exec h (subwaydatanyc.newSession c) w) =
    [answered (OsReadFile (cli.String c "hoard-config")) (Ok b1);
     answered (HoardNewConfig b1) (Ok (subwaydatanyc.hc session));
     answered (OsReadFile (cli.String c "etl-config")) (Ok b2);
     answered (JsonUnmarshalConfig b2) (Ok (subwaydatanyc.ec session));
     answered (StorageNewClient (subwaydatanyc.ec session))
              (Ok (subwaydatanyc.sc session))].
Proof.
  unfold subwaydatanyc.newSession. cbn.
  change subwaydatanyc.hoardConfig with "hoard-config".
  change subwaydatanyc.etlConfig with "etl-config".
  destruct (h (OsReadFile (cli.String c "hoard-config")) w) as [[b1|e] w1]; cbn;
    [ | discriminate].
  destruct (h (HoardNewConfig b1) w1) as [[hc|e] w2]; cbn; [ | discriminate].
  destruct (h (OsReadFile (cli.String c "etl-config")) w2) as [[b2|e] w3]; cbn;
    [ | discriminate].
  destruct (h (JsonUnmarshalConfig b2) w3) as [[ec|e] w4]; cbn; [ | discriminate].
  destruct (h (StorageNewClient ec) w4) as [[sc|e] w5]; cbn; [ | discriminate].
  intros [= <-]. exists b1, b2. reflexivity.
Qed.

(** X2. When [newSession] fails it has stopped at the first call that
    failed, which is the last call of its run.  A failure to read either
    file and a failure to parse the ETL configuration are wrapped in a
    message that says which; an error of the Hoard parser or of the storage
    client is returned as it is. *)
Theorem newSession_failure_trace (c : cli.Context) (w : W) (err : error) :
  outcome (exec h (subwaydatanyc.newSession c) w) = Returned (Err err) ->
  let t := trace (exec h (subwaydatanyc.newSession c) w) in
  (exists e,
     err = "failed to read the Hoard config file from disk: " +:+ e /\
     t = [answered (OsReadFile (cli.String c "hoard-config")) (Err e)])
  \/ (exists b1,
     t = [answered (OsReadFile (cli.String c "hoard-config")) (Ok b1);
          answered (HoardNewConfig b1) (Err err)])
  \/ (exists b1 hc e,
     err = "failed to read the ETL config file from disk: " +:+ e /\
     t = [answered (OsReadFile (cli.String c "hoard-config")) (Ok b1);
          answered (HoardNewConfig b1) (Ok hc);
          answered (OsReadFile (cli.String c "etl-config")) (Err e)])
  \/ (exists b1 hc b2 e,
     err = "failed to parse the ETL config file: " +:+ e /\
     t = [answered (OsReadFile (cli.String c "hoard-config")) (Ok b1);
          answered (HoardNewConfig b1) (Ok hc);
          answered (OsReadFile (cli.String c "etl-config")) (Ok b2);
          answered (JsonUnmarshalConfig b2) (Err e)])
  \/ (exists b1 hc b2 ec,
     t = [answered (OsReadFile (cli.String c "hoard-config")) (Ok b1);
          answered (HoardNewConfig b1) (Ok hc);
          answered (OsReadFile (cli.String c "etl-config")) (Ok b2);
          answered (JsonUnmarshalConfig b2) (Ok ec);
          answered (StorageNewClient ec) (Err err)]).
Proof.
  unfold subwaydatanyc.newSession. cbn.
  change subwaydatanyc.hoardConfig with "hoard-config".
  change subwaydatanyc.etlConfig with "etl-config".
  destruct (h (OsReadFile (cli.String c "hoard-config")) w) as [[b1|e] w1]; cbn.
  2: { intros [= <-]. left. exists e. split; reflexivity. }
  destruct (h (HoardNewConfig b1) w1) as [[hc|e] w2]; cbn.
  2: { intros [= <-]. right. left. exists b1. reflexivity. }
  destruct (h (OsReadFile (cli.String c "etl-config")) w2) as [[b2|e] w3]; cbn.
  2: { intros [= <-]. right. right. left. exists b1, hc, e. split; reflexivity. }
  destruct (h (JsonUnmarshalConfig b2) w3) as [[ec|e] w4]; cbn.
  2: { intros [= <-]. do 3 right. left. exists b1, hc, b2, e. split; reflexivity. }
  destruct (h (StorageNewClient ec) w4) as [[sc|e] w5]; cbn; [discriminate | ].
  intros [= <-]. do 4 right. exists b1, hc, b2, ec. reflexivity.
Qed.

End Session.

Section SessionFailure.

Context `{ext : External}.
Context {W : Type} (h : Handler W).

Lemma action_session_failure (cmd : subwaydatanyc.Command) (c : cli.Context)
    (w : W) (err : error) :
  cmd <> subwaydatanyc.website ->
  outcome (exec h (subwaydatanyc.newSession c) w) = Returned (Err err) ->
  outcome (exec h (subwaydatanyc.actionOf cmd c) w) = Returned (Some err) /\
  trace (exec h (subwaydatanyc.actionOf cmd c) w) =
  trace (exec h (subwaydatanyc.newSession c) w).
Proof.
  intros Hcmd Hs.
  destruct cmd; try congruence; cbn [subwaydatanyc.actionOf];
    unfold subwaydatanyc.deleteAction, subwaydatanyc.runAction,
           subwaydatanyc.backlogAction, subwaydatanyc.periodicAction;
    rewrite exec_bind, Hs; cbn; rewrite app_nil_r; auto.
Qed.

(** X3. When the session of a [delete], [run], [backlog] or [periodic]
    command cannot be set up, the process does nothing beyond the calls of
    [newSession]: it prints [Error:] and the error of the session and exits
    with status 1. *)
Theorem session_failure_exits
    (cmd : subwaydatanyc.Command) (given : gmap string cli.FlagValue)
    (args : list string) (w : W) (err : error) :
  cmd <> subwaydatanyc.website ->
  let c := cli.NewContext (subwaydatanyc.flagsOf cmd) given args in
  outcome (exec h (subwaydatanyc.newSession c) w) = Returned (Err err) ->
  let r := exec h (subwaydatanyc.main (cli.Invoke cmd given args)) w in
  outcome r = Returned 1 /\
  trace r = trace (exec h (subwaydatanyc.newSession c) w) ++
            [answered (Stdout ("Error: " +:+ err +:+ export.nl)) tt].
Proof.
  intros Hcmd c Hs r. subst r.
  pose proof (exit_status_of h (subwaydatanyc.appRun (cli.Invoke cmd given args)) w)
    as H. cbv zeta in H.
  cbn [subwaydatanyc.appRun] in H. fold c in H.
  destruct (action_session_failure cmd c w err Hcmd Hs) as [Ho Ht].
  rewrite Ho, Ht in H. exact H.
Qed.

(** ** The values of [--day] *)

Lemma parseDays_acc (raw : list string) :
  forall acc days,
    subwaydatanyc.parseDays raw acc = Ok days <->
    exists parsed,
      Forall2 (fun s d => metadata.ParseDay s = Ok d) raw parsed /\
      days = acc ++ parsed.
Proof.
  induction raw as [|s raw IH]; intros acc days; cbn [subwaydatanyc.parseDays].
  - split.
    + intros [= <-]. exists []. split; [constructor | symmetry; apply app_nil_r].
    + intros (parsed & Hp & ->). inversion Hp. rewrite app_nil_r. reflexivity.
  - destruct (metadata.ParseDay s) as [d|e] eqn:Hs.
    + rewrite IH. split.
      * intros (parsed & Hp & ->). exists (d :: parsed).
        split; [constructor; assumption | rewrite <- app_assoc; reflexivity].
      * intros (parsed & Hp & ->). inversion Hp as [|s' d' raw' parsed' Hd Hp']; subst.
        rewrite Hs in Hd. injection Hd as <-.
        exists parsed'. split; [assumption | rewrite <- app_assoc; reflexivity].
    + split; [discriminate | ].
      intros (parsed & Hp & _). inversion Hp as [|s' d' raw' parsed' Hd Hp']; subst.
      rewrite Hs in Hd. discriminate Hd.
Qed.

Lemma parseDays_error (raw : list string) :
  forall acc err,
    subwaydatanyc.parseDays raw acc = Err err ->
    exists before s after e,
      raw = before ++ s :: after /\
      Forall (fun s => exists d, metadata.ParseDay s = Ok d) before /\
      metadata.ParseDay s = Err e /\
      err = "failed to parse start date: " +:+ e.
Proof.
  induction raw as [|s raw IH]; intros acc err; cbn [subwaydatanyc.parseDays];
    [discriminate | ].
  destruct (metadata.ParseDay s) as [d|e] eqn:Hs.
  - intros H. destruct (IH _ _ H) as (before & s' & after & e & -> & Hb & He & ->).
    exists (s :: before), s', after, e. repeat split; auto.
    constructor; eauto.
  - intros [= <-]. exists [], s, raw, e. repeat split; auto.
Qed.

(** X4. The loop of the delete command over the values of [--day] gives
    the days in the order of the values, one for each, when every value
    parses; otherwise it gives the error of the first value that does not
    parse, behind the words [failed to parse start date]. *)
Theorem parseDays_in_order (raw : list string) :
  (forall days,
     subwaydatanyc.parseDays raw [] = Ok days <->
     Forall2 (fun s d => metadata.ParseDay s = Ok d) raw days)
  /\ (forall err,
     subwaydatanyc.parseDays raw [] = Err err <->
     exists before s after e,
       raw = before ++ s :: after /\
       Forall (fun s => exists d, metadata.ParseDay s = Ok d) before /\
       metadata.ParseDay s = Err e /\
       err = "failed to parse start date: " +:+ e).
Proof.
  split.
  - intros days. rewrite parseDays_acc. split.
    + intros (parsed & Hp & ->). exact Hp.
    + intros Hp. exists days. auto.
  - intros err. split; [apply parseDays_error | ].
    intros (before & s & after & e & -> & Hb & He & ->).
    assert (forall acc, subwaydatanyc.parseDays (before ++ s :: after) acc =
                        Err ("failed to parse start date: " +:+ e)) as H.
    { induction Hb as [|x before [d Hx] Hb IH]; intros acc; cbn.
      - rewrite He. reflexivity.
      - rewrite Hx. apply IH. }
    apply H.
Qed.

(** X5. A delete command whose session is set up and whose command line
    has no [--day] still calls [etl.DeleteDays], with no day at all, and
    returns what the call returns. *)
Theorem delete_without_days
    (given : gmap string cli.FlagValue) (args : list string) (w : W)
    (session : subwaydatanyc.session) :
  let c := cli.NewContext (subwaydatanyc.flagsOf subwaydatanyc.etl_delete) given args in
  given !! "day" = None ->
  outcome (exec h (subwaydatanyc.newSession c) w) = Returned (Ok session) ->
  exists err,
    outcome (exec h (subwaydatanyc.deleteAction c) w) = Returned err /\
    trace (exec h (subwaydatanyc.deleteAction c) w) =
    trace (exec h (subwaydatanyc.newSession c) w) ++
    [answered (EtlDeleteDays Background [] (negb (cli.Bool c "yes"))
                 (subwaydatanyc.ec session) (subwaydatanyc.sc session)) err].
Proof.
  intros c Hday Hs.
  pose proof (deleteAction_run h c w) as H. cbv zeta in H. rewrite Hs in H.
  assert (cli.StringSlice c "day" = []) as Hslice.
  { unfold cli.StringSlice, c. rewrite NewContext_lookup, Hday. reflexivity. }
  rewrite Hslice in H. cbn [subwaydatanyc.parseDays] in H.
  destruct H as (Ho & Ht & _). eexists. split; [exact Ho | exact Ht].
Qed.


End SessionFailure.

(** ** The periodic and website commands *)

Section Periodic.

Context `{ext : External}.
Context {W : Type} (h : Handler W).

(** The runs of the loop of the periodic command: a call of
    [periodic.NewInterval] per argument, in order, up to the first that
    fails. *)
Lemma parseIntervals_run (args : list string) :
  forall (acc : list Interval) (w : W),
    match outcome (exec h (subwaydatanyc.parseIntervals args acc) w) with
    | Returned (Ok intervals) =>
        exists new,
          intervals = acc ++ new /\ length new = length args /\
          trace (exec h (subwaydatanyc.parseIntervals args acc) w) =
          map (fun p => answered (PeriodicNewInterval (fst p)) (Ok (snd p)))
              (combine args new)
    | Returned (Err err) =>
        exists before s after new e,
          args = before ++ s :: after /\ length new = length before /\
          err = "failed to parse interval: " +:+ e /\
          trace (exec h (subwaydatanyc.parseIntervals args acc) w) =
          map (fun p => answered (PeriodicNewInterval (fst p)) (Ok (snd p)))
              (combine before new) ++
          [answered (PeriodicNewInterval s) (Err e)]
    | Panicked _ => False
    end.
Proof.
  induction args as [|arg args IH]; intros acc w;
    cbn [subwaydatanyc.parseIntervals].
  - cbn. exists []. rewrite app_nil_r. auto.
  - cbn [bind call exec outcome trace final].
    destruct (h (PeriodicNewInterval arg) w) as [[i|e] w1]; cbn [fst snd].
    + specialize (IH (acc ++ [i]) w1).
      destruct (outcome (exec h (subwaydatanyc.parseIntervals args (acc ++ [i])) w1))
        as [[intervals|err]|msg]; [ | | exact IH].
      * destruct IH as (new & -> & Hlen & ->).
        exists (i :: new). rewrite <- app_assoc. cbn. auto.
      * destruct IH as (before & s & after & new & e & -> & Hlen & -> & ->).
        exists (arg :: before), s, after, (i :: new), e. cbn. auto.
    + cbn. exists [], arg, args, [], e. cbn. auto.
Qed.

Lemma setupOp_not_work (t : list Event) :
  Forall (fun e => isSetupOp e = true) t -> Forall (fun e => isWork e = false) t.
Proof.
  intros H. eapply Forall_impl; [exact H | ]. intros [o r].
  unfold isSetupOp, isWork; cbn. destruct o; (discriminate || reflexivity).
Qed.

Lemma intervals_not_work (l : list (string * Interval)) :
  Forall (fun e => isWork e = false)
    (map (fun p => answered (PeriodicNewInterval (fst p)) (Ok (snd p))) l).
Proof. induction l; cbn; constructor; auto. Qed.

(** The run of the periodic command, by the answer of [newSession] and
    the run of its loop. *)
Lemma periodicAction_run (c : cli.Context) (w : W) :
  let rs := exec h (subwaydatanyc.newSession c) w in
  let r := exec h (subwaydatanyc.periodicAction c) w in
  match outcome rs with
  | Returned (Err err) => outcome r = Returned (Some err) /\ trace r = trace rs
  | Returned (Ok session) =>
      match cli.Args c with
      | [] => outcome r = Returned (Some "no intervals provided") /\
              trace r = trace rs
      | _ :: _ =>
          let rp := exec h (subwaydatanyc.parseIntervals (cli.Args c) []) (final rs) in
          match outcome rp with
          | Returned (Ok intervals) =>
              let o := PeriodicRun Background (subwaydatanyc.ec session)
                         (subwaydatanyc.hc session) (subwaydatanyc.sc session)
                         intervals in
              outcome r = Returned None /\
              trace r = trace rs ++ trace rp ++ [answered o (fst (h o (final rp)))]
          | Returned (Err err) =>
              outcome r = Returned (Some err) /\ trace r = trace rs ++ trace rp
          | Panicked msg => outcome r = Panicked msg
          end
      end
  | Panicked msg => outcome r = Panicked msg
  end.
Proof.
  cbv zeta. unfold subwaydatanyc.periodicAction. rewrite exec_bind.
  destruct (outcome (exec h (subwaydatanyc.newSession c) w)) as [[session|err]|msg];
    cbn [outcome trace final]; [ | rewrite app_nil_r; auto | reflexivity].
  destruct (cli.Args c) as [|a args] eqn:Hargs; cbn [length Nat.eqb].
  - cbn. rewrite app_nil_r. auto.
  - rewrite exec_bind.
    destruct (outcome (exec h (subwaydatanyc.parseIntervals (a :: args) [])
                         (final (exec h (subwaydatanyc.newSession c) w))))
      as [[intervals|err]|msg]; cbn; rewrite ?app_nil_r; auto.
Qed.

(** X6. When the periodic command returns no error, it has, after
    setting up the session, parsed every argument as an interval, in the
    order of the arguments, and then called [periodic.Run] once, as its last
    call, with the intervals in that order; there was at least one
    argument. *)
Theorem periodic_success (c : cli.Context) (w : W) :
  outcome (exec h (subwaydatanyc.periodicAction c) w) = Returned None ->
  exists session intervals x,
    outcome (exec h (subwaydatanyc.newSession c) w) = Returned (Ok session) /\
    length intervals = length (cli.Args c) /\
    (0 < length intervals)%nat /\
    trace (exec h (subwaydatanyc.periodicAction c) w) =
    trace (exec h (subwaydatanyc.newSession c) w) ++
    map (fun p => answered (PeriodicNewInterval (fst p)) (Ok (snd p)))
        (combine (cli.Args c) intervals) ++
    [answered (PeriodicRun Background (subwaydatanyc.ec session)
                 (subwaydatanyc.hc session) (subwaydatanyc.sc session) intervals) x].
Proof.
  intros Hnone.
  pose proof (periodicAction_run c w) as H. cbv zeta in H.
  destruct (outcome (exec h (subwaydatanyc.newSession c) w)) as [[session|err]|msg];
    [ | destruct H as [H _]; congruence | congruence].
  destruct (cli.Args c) as [|a args] eqn:Hargs; [destruct H as [H _]; congruence | ].
  pose proof (parseIntervals_run (a :: args) []
                (final (exec h (subwaydatanyc.newSession c) w))) as Hp.
  destruct (outcome (exec h (subwaydatanyc.parseIntervals (a :: args) [])
                       (final (exec h (subwaydatanyc.newSession c) w))))
    as [[intervals|err]|msg]; [ | destruct H as [H _]; congruence | congruence].
  destruct Hp as (new & -> & Hlen & Hp). destruct H as [_ Ht].
  rewrite Hp in Ht. cbn [app] in Ht.
  exists session, new. eexists.
  split; [reflexivity | ]. split; [exact Hlen | ].
  split; [rewrite Hlen; cbn; lia | exact Ht].
Qed.

(** X7. An argument of the periodic command that does not parse as an
    interval ends the command: the failed call of [periodic.NewInterval] is
    the last call of the run, the error returned is its error behind the
    words [failed to parse interval], and [periodic.Run] is not called.
    With no argument at all, a command whose session is set up returns
    [no intervals provided] and makes no further call. *)
Theorem periodic_failure (c : cli.Context) (w : W) :
  (forall arg e,
     In (answered (PeriodicNewInterval arg) (Err e))
        (trace (exec h (subwaydatanyc.periodicAction c) w)) ->
     outcome (exec h (subwaydatanyc.periodicAction c) w) =
       Returned (Some ("failed to parse interval: " +:+ e)) /\
     Forall (fun e => isPeriodicRun e = false)
            (trace (exec h (subwaydatanyc.periodicAction c) w)) /\
     exists before,
       trace (exec h (subwaydatanyc.periodicAction c) w) =
       before ++ [answered (PeriodicNewInterval arg) (Err e)])
  /\ (forall session,
     outcome (exec h (subwaydatanyc.newSession c) w) = Returned (Ok session) ->
     cli.Args c = [] ->
     outcome (exec h (subwaydatanyc.periodicAction c) w) =
       Returned (Some "no intervals provided") /\
     trace (exec h (subwaydatanyc.periodicAction c) w) =
     trace (exec h (subwaydatanyc.newSession c) w)).
Proof.
  pose proof (periodicAction_run c w) as H. cbv zeta in H.
  destruct (newSession_run h c w) as [[res Hres] Hsetup].
  rewrite Hres in H.
  assert (forall (t : list Event) arg e,
            Forall (fun e => isSetupOp e = true) t ->
            ~ In (answered (PeriodicNewInterval arg) (Err e)) t) as Hnot_setup.
  { intros t arg e Ht Hin.
    pose proof (proj1 (List.Forall_forall _ t) Ht _ Hin) as Hx. discriminate Hx. }
  assert (forall (l : list (string * Interval)) arg e,
            ~ In (answered (PeriodicNewInterval arg) (Err e))
                 (map (fun p => answered (PeriodicNewInterval (fst p)) (Ok (snd p))) l))
    as Hnot_ok.
  { intros l arg e Hin. apply in_map_iff in Hin. destruct Hin as (p & Hp & _).
    apply (f_equal answerOfPeriodicNewInterval) in Hp. cbn in Hp. congruence. }
  split.
  - intros arg e Hin.
    destruct res as [session|err];
      [ | destruct H as [_ Ht]; rewrite Ht in Hin;
          destruct (Hnot_setup _ _ _ Hsetup Hin)].
    destruct (cli.Args c) as [|a args] eqn:Hargs;
      [destruct H as [_ Ht]; rewrite Ht in Hin;
       destruct (Hnot_setup _ _ _ Hsetup Hin) | ].
    pose proof (parseIntervals_run (a :: args) []
                  (final (exec h (subwaydatanyc.newSession c) w))) as Hp.
    destruct (outcome (exec h (subwaydatanyc.parseIntervals (a :: args) [])
                         (final (exec h (subwaydatanyc.newSession c) w))))
      as [[intervals|err]|msg]; [ | | destruct Hp].
    + exfalso. destruct Hp as (new & _ & _ & Hp). destruct H as [_ Ht].
      rewrite Ht, Hp in Hin.
      apply in_app_or in Hin. destruct Hin as [Hin | Hin];
        [exact (Hnot_setup _ _ _ Hsetup Hin) | ].
      apply in_app_or in Hin. destruct Hin as [Hin | [Hin | []]];
        [exact (Hnot_ok _ _ _ Hin) | ].
      apply (f_equal answerOfPeriodicNewInterval) in Hin. discriminate Hin.
    + destruct Hp as (before & s & after & new & e' & _ & _ & -> & Hp).
      destruct H as [Ho Ht]. rewrite Ht, Hp in Hin |- *.
      assert (arg = s /\ e = e') as [-> ->].
      { apply in_app_or in Hin. destruct Hin as [Hin | Hin];
          [destruct (Hnot_setup _ _ _ Hsetup Hin) | ].
        apply in_app_or in Hin. destruct Hin as [Hin | [Hin | []]];
          [destruct (Hnot_ok _ _ _ Hin) | ].
        apply (f_equal answerOfPeriodicNewInterval) in Hin. cbn in Hin.
        injection Hin as -> ->. auto. }
      split; [exact Ho | ]. split.
      * apply Forall_app. split.
        { eapply Forall_impl; [exact Hsetup | ]. intros [o r].
          unfold isSetupOp, isPeriodicRun; cbn.
          destruct o; (discriminate || reflexivity). }
        apply Forall_app. split; [ | repeat constructor].
        clear. induction (combine before new); cbn; constructor; auto.
      * eexists. rewrite app_assoc. reflexivity.
  - intros session Hs Hargs. rewrite Hs in Hres. injection Hres as <-.
    rewrite Hargs in H. exact H.
Qed.

(** X8. The website command sets up no session: it makes one call,
    [website.Run] with the value of [--metadata-url] and the port, which is
    8080 when [--port] is not given, and when the call returns the process
    exits with status 0.  ([--metadata-url] is a required flag: the action
    is not called without it, and the empty string below is only what the
    action would read then.) *)
Theorem website_runs_on_port
    (given : gmap string cli.FlagValue) (args : list string) (w : W) :
  let port := match given !! "port" with
              | None => 8080
              | Some (cli.IntValue n) => n
              | Some _ => 0
              end in
  let url := match given !! "metadata-url" with
             | Some (cli.StringValue s) => s
             | _ => EmptyString
             end in
  let r := exec h (subwaydatanyc.main (cli.Invoke subwaydatanyc.website given args)) w in
  outcome r = Returned 0 /\
  exists x, trace r = [answered (WebsiteRun url port) x].
Proof.
  cbv zeta.
  unfold subwaydatanyc.main, subwaydatanyc.appRun, subwaydatanyc.actionOf,
         subwaydatanyc.websiteAction.
  set (c := cli.NewContext (subwaydatanyc.flagsOf subwaydatanyc.website) given args).
  assert (cli.String c "metadata-url" =
          match given !! "metadata-url" with
          | Some (cli.StringValue s) => s
          | _ => EmptyString
          end) as ->.
  { unfold cli.String, c. rewrite NewContext_lookup.
    destruct (given !! "metadata-url") as [[]|]; reflexivity. }
  assert (cli.Int c "port" =
          match given !! "port" with
          | None => 8080
          | Some (cli.IntValue n) => n
          | Some _ => 0
          end) as ->.
  { unfold cli.Int, c. rewrite NewContext_lookup.
    destruct (given !! "port") as [[]|]; reflexivity. }
  cbn. split; [reflexivity | ]. eexists. reflexivity.
Qed.

(** X9. Every command of the binary either returns an error without
    having called any of the operations that do its work ([etl.DeleteDays],
    [etl.Run], [etl.Backlog], [periodic.Run], [website.Run]), or calls
    exactly one of them, as the last call of its run; it never returns
    without error unless that call was made. *)
Theorem one_working_call (cmd : subwaydatanyc.Command) (c : cli.Context) (w : W) :
  let r := exec h (subwaydatanyc.actionOf cmd c) w in
  ((exists err, outcome r = Returned (Some err)) /\
   Forall (fun e => isWork e = false) (trace r))
  \/ (exists before e,
        trace r = before ++ [e] /\ isWork e = true /\
        Forall (fun e => isWork e = false) before).
Proof.
  cbv zeta.
  destruct (newSession_run h c w) as [[res Hres] Hsetup].
  apply setupOp_not_work in Hsetup.
  destruct cmd; cbn [subwaydatanyc.actionOf].
  - pose proof (deleteAction_run h c w) as H. cbv zeta in H. rewrite Hres in H.
    destruct res as [session|err];
      [ | destruct H as (-> & -> & _); left; eauto].
    destruct (subwaydatanyc.parseDays _ _) as [days|err];
      [ | destruct H as (-> & -> & _); left; eauto].
    destruct H as (_ & -> & _). right. eauto.
  - pose proof (runAction_run h c w) as H. cbv zeta in H. rewrite Hres in H.
    destruct res as [session|err]; [ | destruct H as (-> & ->); left; eauto].
    destruct (cli.Args c) as [|s [|s' rest]];
      try (destruct H as (-> & ->); left; eauto; fail).
    destruct (metadata.ParseDay s) as [d|err];
      [ | destruct H as (-> & ->); left; eauto].
    destruct H as (_ & ->). right. eauto.
  - unfold subwaydatanyc.backlogAction. rewrite exec_bind, Hres.
    destruct res as [session|err]; cbn [outcome trace final exec bind call].
    + right. eexists. eexists. split; [reflexivity | ].
      split; [reflexivity | exact Hsetup].
    + left. rewrite app_nil_r. eauto.
  - pose proof (periodicAction_run c w) as H. cbv zeta in H. rewrite Hres in H.
    destruct res as [session|err]; [ | destruct H as (-> & ->); left; eauto].
    destruct (cli.Args c) as [|a args] eqn:Hargs;
      [destruct H as (-> & ->); left; eauto | ].
    pose proof (parseIntervals_run (a :: args) []
                  (final (exec h (subwaydatanyc.newSession c) w))) as Hp.
    destruct (outcome (exec h (subwaydatanyc.parseIntervals (a :: args) [])
                         (final (exec h (subwaydatanyc.newSession c) w))))
      as [[intervals|err]|msg]; [ | | destruct Hp].
    + destruct Hp as (new & _ & _ & Hp). destruct H as [_ ->]. rewrite Hp.
      right. eexists. eexists. rewrite app_assoc. split; [reflexivity | ].
      split; [reflexivity | ].
      apply Forall_app. split; [exact Hsetup | apply intervals_not_work].
    + destruct Hp as (before & s & after & new & e & _ & _ & _ & Hp).
      destruct H as [-> ->]. rewrite Hp. left. split; [eauto | ].
      apply Forall_app. split; [exact Hsetup | ].
      apply Forall_app. split; [apply intervals_not_work | repeat constructor].
  - unfold subwaydatanyc.websiteAction. cbn. right.
    exists []. eexists. split; [reflexivity | ]. split; [reflexivity | constructor].
Qed.

End Periodic.

(** ** The older entry point *)

Section Older.

Context `{ext : External}.
Context {W : Type} (h : Handler W).

Lemma runAction_frame (c : cli.Context) :
  etlmain.runAction c = withGitSession c (runBody c).
Proof. reflexivity. Qed.

Lemma backlogAction_frame (c : cli.Context) :
  etlmain.backlogAction c = withGitSession c backlogBody.
Proof. reflexivity. Qed.

Lemma getHoardConfig_quiet (c : cli.Context) (w : W) :
  Forall (fun e => isQuiet e = true) (trace (exec h (etlmain.getHoardConfig c) w)).
Proof.
  unfold etlmain.getHoardConfig. destruct (negb _); cbn; [constructor | ].
  repeat (match goal with
          | |- context [h ?o ?w] => destruct (h o w) as [[?|?] ?]; cbn
          end); repeat constructor.
Qed.

Lemma getEtlConfig_quiet (c : cli.Context) (w : W) :
  Forall (fun e => isQuiet e = true) (trace (exec h (etlmain.getEtlConfig c) w)).
Proof.
  unfold etlmain.getEtlConfig. destruct (negb _); cbn; [constructor | ].
  repeat (match goal with
          | |- context [h ?o ?w] => destruct (h o w) as [[?|?] ?]; cbn
          end); repeat constructor.
Qed.

(** The runs of the frame: either an error before the git session is
    open, or the configurations, the session, the body and the close. *)
Lemma withGitSession_run (c : cli.Context)
    (body : HoardConfig -> config.Config -> GitSession -> Prog (option error))
    (w : W) :
  ((exists err, outcome (exec h (withGitSession c body) w) = Returned (Some err)) /\
   exists before,
     Forall (fun e => isQuiet e = true) before /\
     (trace (exec h (withGitSession c body) w) = before \/
      exists ec e,
        trace (exec h (withGitSession c body) w) =
        before ++
        [answered (GitNewWritableSession (config.GitUrl ec) (config.GitUser ec)
                     (config.GitPassword ec) (config.GitEmail ec)
                     (config.GitBranch ec) (config.MetadataPath ec)) (Err e)]))
  \/ exists before hc ec gs w1 x,
       Forall (fun e => isQuiet e = true) before /\
       trace (exec h (withGitSession c body) w) =
         before ++
         answered (GitNewWritableSession (config.GitUrl ec) (config.GitUser ec)
                     (config.GitPassword ec) (config.GitEmail ec)
                     (config.GitBranch ec) (config.MetadataPath ec)) (Ok gs) ::
         trace (exec h (body hc ec gs) w1) ++ [answered (GitClose gs) x] /\
       outcome (exec h (withGitSession c body) w) =
         outcome (exec h (body hc ec gs) w1).
Proof.
  unfold withGitSession. rewrite exec_bind.
  destruct (getHoardConfig_run h c w) as [[res ->] _].
  pose proof (getHoardConfig_quiet c w) as Hq1.
  destruct res as [hc|err]; cbn [outcome trace final exec].
  2: { left. split; [eauto | ]. eexists. split; [exact Hq1 | ].
       left. apply app_nil_r. }
  set (w1 := final (exec h (etlmain.getHoardConfig c) w)).
  rewrite exec_bind.
  destruct (getEtlConfig_run h c w1) as [[res ->] _].
  pose proof (getEtlConfig_quiet c w1) as Hq2.
  destruct res as [ec|err]; cbn [outcome trace final exec].
  2: { left. split; [eauto | ].
       exists (trace (exec h (etlmain.getHoardConfig c) w) ++
               trace (exec h (etlmain.getEtlConfig c) w1)).
       split; [apply Forall_app; split; assumption | ].
       left. rewrite app_nil_r. reflexivity. }
  set (w2 := final (exec h (etlmain.getEtlConfig c) w1)).
  unfold etlmain.newGitSession. cbn [bind call exec outcome trace final].
  destruct (h (GitNewWritableSession _ _ _ _ _ _) w2) as [[gs|err] w3];
    cbn [fst snd exec outcome trace final].
  2: { left. split; [eauto | ].
       exists (trace (exec h (etlmain.getHoardConfig c) w) ++
               trace (exec h (etlmain.getEtlConfig c) w1)).
       split; [apply Forall_app; split; assumption | ].
       right. exists ec, err. rewrite <- app_assoc. reflexivity. }
  rewrite exec_defer. cbv zeta.
  unfold etlmain.closeSession. cbn [bind call exec outcome trace final].
  right.
  exists (trace (exec h (etlmain.getHoardConfig c) w) ++
          trace (exec h (etlmain.getEtlConfig c) w1)), hc, ec, gs, w3.
  eexists. split; [apply Forall_app; split; assumption | ].
  split; [rewrite <- !app_assoc; reflexivity | reflexivity].
Qed.

Lemma isQuiet_spec (e : Event) :
  isQuiet e = true ->
  isGitClose e = false /\ answerOfGitNewWritableSession e = None /\
  isWork e = false.
Proof.
  destruct e as [o r]. unfold isQuiet, isGitClose, isWork; cbn.
  destruct o; (discriminate || (intros _; repeat split)).
Qed.

Lemma omap_nothing {A B : Type} (f : A -> option B) (l : list A) :
  Forall (fun e => f e = None) l -> omap f l = [].
Proof.
  induction 1 as [|e l He _ IH]; [reflexivity | ].
  cbn. rewrite He. exact IH.
Qed.

Lemma quiet_not_closing (t : list Event) :
  Forall (fun e => isQuiet e = true) t ->
  Forall (fun e => isGitClose e = false) t.
Proof.
  intros H. eapply Forall_impl; [exact H | ].
  intros e He. apply isQuiet_spec in He. tauto.
Qed.

Lemma quiet_not_opening (t : list Event) :
  Forall (fun e => isQuiet e = true) t ->
  omap answerOfGitNewWritableSession t = [].
Proof.
  intros H. apply omap_nothing. eapply Forall_impl; [exact H | ].
  intros e He. apply isQuiet_spec in He. tauto.
Qed.

Lemma quiet_not_work (t : list Event) :
  Forall (fun e => isQuiet e = true) t ->
  Forall (fun e => isWork e = false) t.
Proof.
  intros H. eapply Forall_impl; [exact H | ].
  intros e He. apply isQuiet_spec in He. tauto.
Qed.

Lemma runBody_run (c : cli.Context) (hc : HoardConfig) (ec : config.Config)
    (gs : GitSession) (w : W) :
  (exists err, outcome (exec h (runBody c hc ec gs) w) = Returned err) /\
  Forall (fun e => isGitClose e = false)
         (trace (exec h (runBody c hc ec gs) w)) /\
  omap answerOfGitNewWritableSession (trace (exec h (runBody c hc ec gs) w)) = [].
Proof.
  unfold runBody. cbv zeta.
  destruct (length (cli.Args c)) as [|[|n]]; cbn.
  - split; [eauto | split; [constructor | reflexivity]].
  - destruct (metadata.ParseDay _) as [d|err]; cbn.
    + split; [eauto | split; [repeat constructor | reflexivity]].
    + split; [eauto | split; [constructor | reflexivity]].
  - split; [eauto | split; [constructor | reflexivity]].
Qed.

Lemma stdout_quiet (t : list Event) :
  Forall (fun e => isStdout e = true) t ->
  Forall (fun e => isQuiet e = true) t.
Proof.
  intros H. eapply Forall_impl; [exact H | ].
  intros [o r]. unfold isStdout, isQuiet; cbn.
  destruct o; (discriminate || reflexivity).
Qed.

Lemma backlogBody_run (hc : HoardConfig) (ec : config.Config)
    (gs : GitSession) (w : W) :
  (exists err, outcome (exec h (backlogBody hc ec gs) w) = Returned err) /\
  Forall (fun e => isQuiet e = true) (trace (exec h (backlogBody hc ec gs) w)).
Proof.
  unfold backlogBody. cbn [bind call exec outcome trace final].
  destruct (h (GitReadMetadata gs) w) as [[m|err] w1]; cbn [fst snd exec outcome trace final].
  2: { split; [eauto | repeat constructor]. }
  destruct (h (TimeLoadLocation _) w1) as [[l|err] w2]; cbn [fst snd exec outcome trace final].
  2: { split; [eauto | repeat constructor]. }
  destruct (h TimeNow w2) as [now w3]; cbn [fst snd].
  destruct (reportBacklog_run h
              (metadata.CalculatePendingDays m (etlmain.referenceDay now l)) w3)
    as [Ho Ht].
  split; [eauto | ].
  repeat (constructor; [reflexivity | ]). apply stdout_quiet. exact Ht.
Qed.

(** The body of each command inside the frame. *)
Lemma actionOf_frame (cmd : etlmain.Command) (c : cli.Context) :
  etlmain.actionOf cmd c =
  withGitSession c match cmd with
                   | etlmain.run => runBody c
                   | etlmain.backlog => backlogBody
                   end.
Proof. destruct cmd; reflexivity. Qed.

Lemma olderBody_run (cmd : etlmain.Command) (c : cli.Context)
    (hc : HoardConfig) (ec : config.Config) (gs : GitSession) (w : W) :
  (exists err,
     outcome (exec h (match cmd with
                      | etlmain.run => runBody c
                      | etlmain.backlog => backlogBody
                      end hc ec gs) w) = Returned err) /\
  Forall (fun e => isGitClose e = false)
         (trace (exec h (match cmd with
                         | etlmain.run => runBody c
                         | etlmain.backlog => backlogBody
                         end hc ec gs) w)) /\
  omap answerOfGitNewWritableSession
       (trace (exec h (match cmd with
                       | etlmain.run => runBody c
                       | etlmain.backlog => backlogBody
                       end hc ec gs) w)) = [].
Proof.
  destruct cmd.
  - apply runBody_run.
  - destruct (backlogBody_run hc ec gs w) as [Ho Ht].
    split; [exact Ho | ].
    split; [apply quiet_not_closing | apply quiet_not_opening]; exact Ht.
Qed.

(** X10. Both commands of the older entry point close the git session
    they open: when [git.NewWritableSession] gave a session, [Close] is
    called on that session, once, as the last call of the run, whatever
    the command did in between and whether or not it returns an error; no
    second session is opened.  When no session was given the command
    returns an error and [Close] is not called. *)
Theorem older_session_closed_last (cmd : etlmain.Command) (c : cli.Context)
    (w : W) :
  ((exists err, outcome (exec h (etlmain.actionOf cmd c) w) = Returned (Some err)) /\
   Forall (fun e => isGitClose e = false)
          (trace (exec h (etlmain.actionOf cmd c) w)) /\
   (omap answerOfGitNewWritableSession
         (trace (exec h (etlmain.actionOf cmd c) w)) = [] \/
    exists e,
      omap answerOfGitNewWritableSession
           (trace (exec h (etlmain.actionOf cmd c) w)) = [Err e]))
  \/ (exists before gs x,
        trace (exec h (etlmain.actionOf cmd c) w) =
          before ++ [answered (GitClose gs) x] /\
        Forall (fun e => isGitClose e = false) before /\
        omap answerOfGitNewWritableSession before = [Ok gs] /\
        exists err,
          outcome (exec h (etlmain.actionOf cmd c) w) = Returned err).
Proof.
  rewrite actionOf_frame.
  destruct (withGitSession_run c
              match cmd with
              | etlmain.run => runBody c
              | etlmain.backlog => backlogBody
              end w)
    as [[Herr (before & Hq & [Ht | (ec & e & Ht)])]
       | (before & hc & ec & gs & w1 & x & Hq & Ht & Ho)].
  - left. split; [exact Herr | ]. rewrite Ht.
    split; [apply quiet_not_closing; exact Hq | ].
    left. apply quiet_not_opening; exact Hq.
  - left. split; [exact Herr | ]. rewrite Ht.
    split.
    + apply Forall_app. split; [apply quiet_not_closing; exact Hq | ].
      repeat constructor.
    + right. exists e. rewrite omap_app, (quiet_not_opening _ Hq). reflexivity.
  - right.
    destruct (olderBody_run cmd c hc ec gs w1) as ([err Hb] & Hc & Hn).
    eexists (before ++ _ :: _), gs, x.
    split; [rewrite Ht, <- app_assoc; reflexivity | ].
    split.
    + apply Forall_app. split; [apply quiet_not_closing; exact Hq | ].
      constructor; [reflexivity | exact Hc].
    + split.
      * rewrite omap_app, (quiet_not_opening _ Hq). cbn. rewrite Hn. reflexivity.
      * exists err. rewrite Ho. exact Hb.
Qed.

(** X11. The older backlog command only reports: whatever the outside
    world answers, it returns (the index of the listing loop never leaves
    the slice), and apart from opening and closing the git session its
    calls are reads of the two configuration files, of the ledger, of the
    time-zone database and of the clock, and prints; the pipeline is never
    run. *)
Theorem older_backlog_only_reports (c : cli.Context) (w : W) :
  (exists err, outcome (exec h (etlmain.backlogAction c) w) = Returned err) /\
  Forall (fun e => isQuiet e = true \/ isGitNewWritableSession e = true \/
                   isGitClose e = true)
         (trace (exec h (etlmain.backlogAction c) w)) /\
  Forall (fun e => isWork e = false) (trace (exec h (etlmain.backlogAction c) w)).
Proof.
  rewrite backlogAction_frame.
  assert (Hquiet : forall t, Forall (fun e => isQuiet e = true) t ->
            Forall (fun e => isQuiet e = true \/ isGitNewWritableSession e = true \/
                             isGitClose e = true) t).
  { intros t H. eapply Forall_impl; [exact H | ]. intros e He. left. exact He. }
  destruct (withGitSession_run c backlogBody w)
    as [[[err Herr] (before & Hq & [Ht | (ec & e & Ht)])]
       | (before & hc & ec & gs & w1 & x & Hq & Ht & Ho)]; rewrite Ht.
  - split; [eauto | ]. split; [apply Hquiet | apply quiet_not_work]; exact Hq.
  - split; [eauto | ]. split; apply Forall_app; split;
      try (apply Hquiet; exact Hq); try (apply quiet_not_work; exact Hq).
    + constructor; [right; left; reflexivity | constructor].
    + repeat constructor.
  - destruct (backlogBody_run hc ec gs w1) as [[err Hb] Hbt].
    split; [exists err; rewrite Ho; exact Hb | ].
    split; apply Forall_app; split;
      try (apply Hquiet; exact Hq); try (apply quiet_not_work; exact Hq).
    + constructor; [right; left; reflexivity | ].
      apply Forall_app. split; [apply Hquiet; exact Hbt | ].
      constructor; [right; right; reflexivity | constructor].
    + constructor; [reflexivity | ].
      apply Forall_app. split; [apply quiet_not_work; exact Hbt | ].
      repeat constructor.
Qed.

(** X12. The older run command runs the pipeline only for exactly one
    argument that is a day: with no argument, with more than one, or with
    one that does not parse, the pipeline is not run and an error is
    returned; when the git session was opened the error is [no day
    provided], [too many command line arguments passed], or the error of
    the parser, and the session is still closed. *)
Theorem older_run_rejects (c : cli.Context) (w : W) :
  (length (cli.Args c) <> 1%nat \/
   exists e, metadata.ParseDay (cli.Get (cli.Args c) 0) = Err e) ->
  Forall (fun e => isWork e = false) (trace (exec h (etlmain.runAction c) w)) /\
  (exists err, outcome (exec h (etlmain.runAction c) w) = Returned (Some err)) /\
  forall gs,
    In (Ok gs) (omap answerOfGitNewWritableSession
                  (trace (exec h (etlmain.runAction c) w))) ->
    (exists before x,
       trace (exec h (etlmain.runAction c) w) =
       before ++ [answered (GitClose gs) x]) /\
    outcome (exec h (etlmain.runAction c) w) =
    Returned (Some match length (cli.Args c) with
                   | 0%nat => "no day provided"
                   | 1%nat =>
                       match metadata.ParseDay (cli.Get (cli.Args c) 0) with
                       | Err e => e
                       | Ok _ => EmptyString
                       end
                   | _ => "too many command line arguments passed"
                   end).
Proof.
  intros Hbad. rewrite runAction_frame.
  assert (Hbody : forall hc ec gs w1,
            trace (exec h (runBody c hc ec gs) w1) = [] /\
            outcome (exec h (runBody c hc ec gs) w1) =
            Returned (Some match length (cli.Args c) with
                           | 0%nat => "no day provided"
                           | 1%nat =>
                               match metadata.ParseDay (cli.Get (cli.Args c) 0) with
                               | Err e => e
                               | Ok _ => EmptyString
                               end
                           | _ => "too many command line arguments passed"
                           end)).
  { intros hc ec gs w1. unfold runBody. cbv zeta.
    destruct (length (cli.Args c)) as [|[|n]]; cbn; [auto | | auto].
    destruct Hbad as [Hbad | [e He]]; [congruence | ].
    rewrite He. cbn. auto. }
  destruct (withGitSession_run c (runBody c) w)
    as [[Herr (before & Hq & [Ht | (ec & e & Ht)])]
       | (before & hc & ec & gs & w1 & x & Hq & Ht & Ho)]; rewrite Ht.
  - split; [apply quiet_not_work; exact Hq | ]. split; [exact Herr | ].
    intros gs Hin. rewrite (quiet_not_opening _ Hq) in Hin. destruct Hin.
  - split.
    { apply Forall_app. split; [apply quiet_not_work; exact Hq | repeat constructor]. }
    split; [exact Herr | ].
    intros gs Hin. rewrite omap_app, (quiet_not_opening _ Hq) in Hin.
    cbn in Hin. destruct Hin as [Hin | []]. discriminate Hin.
  - destruct (Hbody hc ec gs w1) as [Hbt Hbo]. rewrite Hbt. cbn [app].
    split.
    { apply Forall_app. split; [apply quiet_not_work; exact Hq | repeat constructor]. }
    split; [rewrite Ho, Hbo; eauto | ].
    intros gs' Hin. rewrite omap_app, (quiet_not_opening _ Hq) in Hin.
    cbn in Hin. destruct Hin as [Hin | []]. injection Hin as <-.
    split; [ | rewrite Ho; exact Hbo].
    eexists (before ++ [_]), x. rewrite <- app_assoc. reflexivity.
Qed.

Lemma getHoardConfig_unset (c : cli.Context) (w : W) :
  cli.IsSet c "hoard-config" = false ->
  exec h (etlmain.getHoardConfig c) w =
  mkRun (Returned (Err "a Hoard config must be provided")) [] w.
Proof.
  intros H. unfold etlmain.getHoardConfig.
  change etlmain.hoardConfig with "hoard-config". rewrite H. reflexivity.
Qed.

Lemma getEtlConfig_unset (c : cli.Context) (w : W) :
  cli.IsSet c "etl-config" = false ->
  exec h (etlmain.getEtlConfig c) w =
  mkRun (Returned (Err "an ETL config must be provided")) [] w.
Proof.
  intros H. unfold etlmain.getEtlConfig.
  change etlmain.etlConfig with "etl-config". rewrite H. reflexivity.
Qed.

(** X13. The older entry point needs both configuration flags, though it
    declares neither as required: without [--hoard-config] the process
    makes no call but the print of [Error: a Hoard config must be
    provided]; without [--etl-config] it opens no git session and does no
    work; either way the exit status is 1. *)
Theorem older_needs_both_configs (cmd : etlmain.Command)
    (given : gmap string cli.FlagValue) (args : list string) (w : W) :
  given !! "hoard-config" = None \/ given !! "etl-config" = None ->
  outcome (exec h (etlmain.main (cli.Invoke cmd given args)) w) = Returned 1 /\
  Forall (fun e => isQuiet e = true)
         (trace (exec h (etlmain.main (cli.Invoke cmd given args)) w)) /\
  (given !! "hoard-config" = None ->
   trace (exec h (etlmain.main (cli.Invoke cmd given args)) w) =
   [answered (Stdout ("Error: a Hoard config must be provided" +:+ export.nl)) tt]).
Proof.
  intros Hmissing.
  pose proof (exit_status_of h (etlmain.appRun (cli.Invoke cmd given args)) w) as Hexit.
  cbv zeta in Hexit. fold (etlmain.main (cli.Invoke cmd given args)) in Hexit.
  cbn [etlmain.appRun] in Hexit.
  set (c := cli.NewContext etlmain.appFlags given args) in *.
  assert (Hact :
    exists err,
      outcome (exec h (etlmain.actionOf cmd c) w) = Returned (Some err) /\
      Forall (fun e => isQuiet e = true) (trace (exec h (etlmain.actionOf cmd c) w)) /\
      (given !! "hoard-config" = None ->
       err = "a Hoard config must be provided" /\
       trace (exec h (etlmain.actionOf cmd c) w) = [])).
  { rewrite actionOf_frame. unfold withGitSession. rewrite exec_bind.
    destruct (given !! "hoard-config") as [v|] eqn:Hhoard.
    2: { rewrite getHoardConfig_unset
           by (unfold c; rewrite NewContext_IsSet, Hhoard; reflexivity).
         cbn. eexists. split; [reflexivity | ].
         split; [constructor | ]. intros _. split; reflexivity. }
    destruct Hmissing as [Hmissing | Hetl]; [discriminate Hmissing | ].
    pose proof (getHoardConfig_quiet c w) as Hq1.
    destruct (getHoardConfig_run h c w) as [[res Hres] _].
    rewrite Hres.
    destruct res as [hc|err]; cbn [outcome trace final exec].
    2: { exists err. split; [reflexivity | ]. rewrite app_nil_r.
         split; [exact Hq1 | discriminate]. }
    rewrite exec_bind.
    rewrite getEtlConfig_unset
      by (unfold c; rewrite NewContext_IsSet, Hetl; reflexivity).
    cbn. eexists. split; [reflexivity | ]. rewrite app_nil_r.
    split; [exact Hq1 | discriminate]. }
  destruct Hact as (err & Ho & Hq & Hh).
  rewrite Ho in Hexit. destruct Hexit as [Hout Htr].
  split; [exact Hout | ]. rewrite Htr.
  split.
  - apply Forall_app. split; [exact Hq | repeat constructor].
  - intros Hnone. destruct (Hh Hnone) as [-> ->]. reflexivity.
Qed.

End Older.

(** ** What the older backlog command prints *)

Section Listing.

Context `{ext : External}.
Context {W : Type} (h : Handler W).

Lemma append_nil_r (s : string) : s +:+ EmptyString = s.
Proof.
  induction s as [|ch s IH]; [reflexivity | ].
  change (String ch (s +:+ EmptyString) = String ch s). rewrite IH. reflexivity.
Qed.

Lemma stdoutOf_cons_Stdout (text : string) (x : unit) (t : list Event) :
  stdoutOf (answered (Stdout text) x :: t) = text +:+ stdoutOf t.
Proof. reflexivity. Qed.

Lemma rev_lookup_back {A : Type} (l : list A) (i : nat) :
  (i < length l)%nat -> rev l !! i = l !! (length l - S i)%nat.
Proof.
  intros H. rewrite rev_alt. apply (reverse_lookup l i H).
Qed.

Lemma listPendingDays_stdout (pendingDays : list metadata.PendingDay)
    (remaining : nat) :
  forall (i : Z) (w : W),
    0 <= i <= 20 ->
    Z.of_nat remaining + i = Z.of_nat (length pendingDays) ->
    stdoutOf (trace (exec h (etlmain.listPendingDays pendingDays remaining i) w)) =
    export.concat
      (map pendingDayLine
         (firstn (Z.to_nat (20 - i)) (skipn (Z.to_nat i) (rev pendingDays)))) +:+
    (if 20 <? Z.of_nat (length pendingDays) then moreDaysLine pendingDays
     else EmptyString).
Proof.
  induction remaining as [|rest IH]; intros i w Hi Hlen;
    cbn [etlmain.listPendingDays].
  - cbn [exec trace]. 
    rewrite skipn_all2; [ | rewrite length_rev; lia].
    rewrite firstn_nil. 
    destruct (Z.ltb_spec 20 (Z.of_nat (length pendingDays))); [lia | reflexivity].
  - destruct (Z.leb_spec 20 i) as [H20 | H20].
    + assert (i = 20) as -> by lia.
      cbn [call exec trace]. change (Z.to_nat (20 - 20)) with 0%nat.
      rewrite firstn_O.
      assert ((20 <? Z.of_nat (length pendingDays)) = true) as ->
        by (apply Z.ltb_lt; lia).
      destruct (h _ w) as [[] w']. cbn [fst snd exec trace].
      rewrite stdoutOf_cons_Stdout.
      change (stdoutOf []) with EmptyString. rewrite append_nil_r. reflexivity.
    + cbv zeta.
      destruct (Z.ltb_spec (Z.of_nat (length pendingDays) - i - 1) 0); [lia | ].
      destruct (lookup_lt_is_Some_2 pendingDays
                  (Z.to_nat (Z.of_nat (length pendingDays) - i - 1))) as [d Hd];
        [lia | ].
      rewrite Hd. cbn [bind call exec outcome trace final].
      destruct (h _ w) as [[] w']. cbn [fst snd].
      rewrite stdoutOf_cons_Stdout, (IH (i + 1) w') by lia.
      assert (Hrev : rev pendingDays !! Z.to_nat i = Some d).
      { rewrite rev_lookup_back by lia. rewrite <- Hd. f_equal. lia. }
      rewrite (drop_S _ _ _ Hrev).
      replace (Z.to_nat (20 - i)) with (S (Z.to_nat (20 - (i + 1)))) by lia.
      replace (S (Z.to_nat i)) with (Z.to_nat (i + 1)) by lia.
      cbn [firstn map export.concat fold_right].
      fold (export.concat
              (map pendingDayLine
                 (firstn (Z.to_nat (20 - (i + 1)))
                    (drop (Z.to_nat (i + 1)) (rev pendingDays))))).
      rewrite (append_assoc (pendingDayLine d)). reflexivity.
Qed.

(** X14. What the end of the older backlog command prints, said without
    its loop: [No days in the backlog] when there is no pending day;
    otherwise the number of pending days, then one line per pending day
    with the day and its feeds, from the last element of the slice
    backwards and for twenty days at most, then, when there are more than
    twenty, one line with the number of days left out.  It returns no
    error. *)
Theorem reportBacklog_prints (pendingDays : list metadata.PendingDay) (w : W) :
  outcome (exec h (etlmain.reportBacklog pendingDays) w) = Returned None /\
  stdoutOf (trace (exec h (etlmain.reportBacklog pendingDays) w)) =
  match pendingDays with
  | [] => "No days in the backlog" +:+ export.nl
  | _ :: _ =>
      pretty (Z.of_nat (length pendingDays)) +:+ " days in the backlog:" +:+
      export.nl +:+ backlogListing pendingDays
  end.
Proof.
  split; [apply reportBacklog_run | ].
  unfold etlmain.reportBacklog.
  destruct pendingDays as [|d0 rest0] eqn:Hp.
  - cbn. reflexivity.
  - rewrite <- Hp.
    assert ((length pendingDays =? 0)%nat = false) as ->
      by (subst pendingDays; reflexivity).
    cbn [bind call exec outcome trace final].
    destruct (h _ w) as [[] w']. cbn [fst snd].
    rewrite exec_bind.
    destruct (listPendingDays_run h pendingDays (length pendingDays) 0 w')
      as [Ho _]; [lia | lia | ].
    rewrite Ho. cbn [outcome trace final exec].
    rewrite app_nil_r, stdoutOf_cons_Stdout.
    rewrite (listPendingDays_stdout pendingDays (length pendingDays) 0 w')
      by lia.
    change (Z.to_nat (20 - 0)) with 20%nat. change (Z.to_nat 0) with 0%nat.
    rewrite skipn_O. unfold backlogListing.
    rewrite !append_assoc. reflexivity.
Qed.

End Listing.

(** ** The reference day and the clock *)

(** X15. Five in the morning is when the reference day of the older
    backlog command changes: in a zone whose offset is the same five hours
    earlier, the reference day is the local calendar date of the clock's
    answer when the local time of day is 05:00:00 or later, and the day
    before that date otherwise. *)
Theorem referenceDay_five_am (now : time.Time) (l : time.Location) :
  0 <= time.nsec now < 1000000000 ->
  time.zoneOffset l (time.unixSec now - 5 * 3600) =
  time.zoneOffset l (time.unixSec now) ->
  -719467 <= time.localDay (time.In now l) <= 2932896 ->
  etlmain.referenceDay now l =
  if (time.unixSec now + time.zoneOffset l (time.unixSec now)) mod 86400 <? 5 * 3600
  then time.localDay (time.In now l) - 1
  else time.localDay (time.In now l).
Proof.
  unfold time.localDay, time.In; cbn [time.unixSec time.loc].
  intros Hns Hfix Hrange.
  pose proof (referenceDay_localDay now l Hns) as Href. cbv zeta in Href.
  rewrite Hfix in Href.
  set (local := time.unixSec now + time.zoneOffset l (time.unixSec now)) in *.
  replace (time.unixSec now - 5 * 3600 + time.zoneOffset l (time.unixSec now))
    with (local - 18000) in Href by (subst local; lia).
  clearbody local.
  rewrite Href by lia. clear Href Hfix Hns.
  destruct (Z.ltb_spec (local mod 86400) (5 * 3600)); lia.
Qed.

(** ** The archive reader of the export test *)

(** X16. [unTar] maps a name to the content of the last entry of the
    archive that has this name, and has no other key: an archive with two
    entries of one name shows the test only the later one. *)
Theorem unTar_lookup_last (b : export.Archive) (name : string) :
  export.unTar b !! name =
  export.Body <$>
    list.last (List.filter (fun e => String.eqb (export.Name e) name) b).
Proof.
  unfold export.unTar.
  induction b as [|e b IH] using rev_ind; [reflexivity | ].
  rewrite foldl_snoc, List.filter_app. cbn [List.filter].
  destruct (String.eqb_spec (export.Name e) name) as [<- | Hne].
  - rewrite lookup_insert_eq, last_snoc. reflexivity.
  - rewrite lookup_insert_ne by exact Hne. rewrite app_nil_r. exact IH.
Qed.

(** ** Runs of the properties above on a simulated world *)

Lemma newSession_success_trace_witness :
  outcome (exec sim.handler (subwaydatanyc.newSession (sim.runContext []))
             sim.configured) =
    Returned (Ok (subwaydatanyc.mkSession (sim.configOf "America/New_York")
                    sim.hoard sim.client))
  /\ exists b1 b2,
       trace (exec sim.handler (subwaydatanyc.newSession (sim.runContext []))
                sim.configured) =
       [@answered sim.external (OsReadFile "hoard.yaml") (Ok b1);
        @answered sim.external (HoardNewConfig b1) (Ok sim.hoard);
        @answered sim.external (OsReadFile "etl.json") (Ok b2);
        @answered sim.external (JsonUnmarshalConfig b2)
                  (Ok (sim.configOf "America/New_York"));
        @answered sim.external (StorageNewClient (sim.configOf "America/New_York"))
                  (Ok sim.client)].
Proof.
  assert (outcome (exec sim.handler (subwaydatanyc.newSession (sim.runContext []))
                     sim.configured) =
          Returned (Ok (subwaydatanyc.mkSession (sim.configOf "America/New_York")
                          sim.hoard sim.client))) as Hs
    by (vm_compute; reflexivity).
  split; [exact Hs | ].
  exact (@newSession_success_trace sim.external sim.World sim.handler
           (sim.runContext []) sim.configured _ Hs).
Defined.

Lemma newSession_failure_trace_witness :
  outcome (exec sim.handler (subwaydatanyc.newSession (sim.runContext []))
             sim.unconfigured) =
    Returned (Err ("failed to read the Hoard config file from disk: " +:+
                   "open hoard.yaml: no such file or directory"))
  /\ length (trace (exec sim.handler (subwaydatanyc.newSession (sim.runContext []))
                      sim.unconfigured)) = 1%nat.
Proof.
  assert (outcome (exec sim.handler (subwaydatanyc.newSession (sim.runContext []))
                     sim.unconfigured) =
          Returned (Err ("failed to read the Hoard config file from disk: " +:+
                         "open hoard.yaml: no such file or directory"))) as Hs
    by (vm_compute; reflexivity).
  split; [exact Hs | ].
  pose proof (@newSession_failure_trace sim.external sim.World sim.handler
                (sim.runContext []) sim.unconfigured _ Hs) as H.
  cbv zeta in H.
  destruct H as [(e & _ & ->) | [(b1 & Ht) | [(b1 & hc & e & _ & Ht)
                | [(b1 & hc & b2 & e & _ & Ht) | (b1 & hc & b2 & ec & Ht)]]]];
    [reflexivity | apply (f_equal (@length _)) in Ht; vm_compute in Ht; discriminate Ht ..].
Defined.

Lemma session_failure_exits_witness :
  (subwaydatanyc.etl_run <> subwaydatanyc.website /\
   outcome (exec sim.handler
              (subwaydatanyc.newSession
                 (cli.NewContext (subwaydatanyc.flagsOf subwaydatanyc.etl_run)
                    sim.configFlags ["2022-01-08"]))
              sim.unconfigured) =
   Returned (Err ("failed to read the Hoard config file from disk: " +:+
                  "open hoard.yaml: no such file or directory")))
  /\ outcome (exec sim.handler
                (subwaydatanyc.main
                   (cli.Invoke subwaydatanyc.etl_run sim.configFlags ["2022-01-08"]))
                sim.unconfigured) = Returned 1.
Proof.
  assert (subwaydatanyc.etl_run <> subwaydatanyc.website) as Hc by discriminate.
  assert (outcome (exec sim.handler
              (subwaydatanyc.newSession
                 (cli.NewContext (subwaydatanyc.flagsOf subwaydatanyc.etl_run)
                    sim.configFlags ["2022-01-08"]))
              sim.unconfigured) =
          Returned (Err ("failed to read the Hoard config file from disk: " +:+
                         "open hoard.yaml: no such file or directory"))) as Hs
    by (vm_compute; reflexivity).
  split; [split; [exact Hc | exact Hs] | ].
  exact (proj1 (@session_failure_exits sim.external sim.World sim.handler
                  subwaydatanyc.etl_run sim.configFlags ["2022-01-08"]
                  sim.unconfigured _ Hc Hs)).
Defined.

Lemma delete_without_days_witness :
  (sim.configFlags !! "day" = None /\
   outcome (exec sim.handler
              (subwaydatanyc.newSession
                 (cli.NewContext (subwaydatanyc.flagsOf subwaydatanyc.etl_delete)
                    sim.configFlags []))
              sim.configured) =
   Returned (Ok (subwaydatanyc.mkSession (sim.configOf "America/New_York")
                   sim.hoard sim.client)))
  /\ exists err,
       outcome (exec sim.handler
                  (subwaydatanyc.deleteAction
                     (cli.NewContext (subwaydatanyc.flagsOf subwaydatanyc.etl_delete)
                        sim.configFlags []))
                  sim.configured) = Returned err.
Proof.
  assert (sim.configFlags !! "day" = None) as Hd by (vm_compute; reflexivity).
  assert (outcome (exec sim.handler
              (subwaydatanyc.newSession
                 (cli.NewContext (subwaydatanyc.flagsOf subwaydatanyc.etl_delete)
                    sim.configFlags []))
              sim.configured) =
          Returned (Ok (subwaydatanyc.mkSession (sim.configOf "America/New_York")
                          sim.hoard sim.client))) as Hs
    by (vm_compute; reflexivity).
  split; [split; [exact Hd | exact Hs] | ].
  destruct (@delete_without_days sim.external sim.World sim.handler
              sim.configFlags [] sim.configured _ Hd Hs) as (err & Ho & _).
  exists err. exact Ho.
Defined.

Lemma periodic_success_witness :
  outcome (exec sim.handler
             (subwaydatanyc.periodicAction
                (cli.NewContext (subwaydatanyc.flagsOf subwaydatanyc.etl_periodic)
                   sim.configFlags ["00:00:00-04:30:00"; "12:00:00-12:30:00"]))
             sim.configured) = Returned None
  /\ exists intervals : list (@Interval sim.external),
       length intervals = 2%nat.
Proof.
  assert (outcome (exec sim.handler
             (subwaydatanyc.periodicAction
                (cli.NewContext (subwaydatanyc.flagsOf subwaydatanyc.etl_periodic)
                   sim.configFlags ["00:00:00-04:30:00"; "12:00:00-12:30:00"]))
             sim.configured) = Returned None) as Ho
    by (vm_compute; reflexivity).
  split; [exact Ho | ].
  destruct (@periodic_success sim.external sim.World sim.handler _ _ Ho)
    as (session & intervals & x & _ & Hlen & _).
  exists intervals. exact Hlen.
Defined.

Lemma older_run_rejects_witness :
  (length (cli.Args sim.backlogContext) <> 1%nat \/
   exists e, metadata.ParseDay (cli.Get (cli.Args sim.backlogContext) 0) = Err e)
  /\ Forall (fun e => isWork e = false)
            (trace (exec sim.handler (etlmain.runAction sim.backlogContext)
                      sim.configured))
  /\ exists err,
       outcome (exec sim.handler (etlmain.runAction sim.backlogContext)
                  sim.configured) = Returned (Some err).
Proof.
  assert (length (cli.Args sim.backlogContext) <> 1%nat \/
          exists e, metadata.ParseDay (cli.Get (cli.Args sim.backlogContext) 0) = Err e)
    as Hbad by (left; cbn; lia).
  split; [exact Hbad | ].
  destruct (@older_run_rejects sim.external sim.World sim.handler
              sim.backlogContext sim.configured Hbad) as (Hw & He & _).
  split; [exact Hw | exact He].
Defined.

Lemma older_needs_both_configs_witness :
  ((∅ : gmap string cli.FlagValue) !! "hoard-config" = None \/
   (∅ : gmap string cli.FlagValue) !! "etl-config" = None)
  /\ outcome (exec sim.handler
                (etlmain.main (cli.Invoke etlmain.backlog ∅ []))
                sim.configured) = Returned 1.
Proof.
  assert ((∅ : gmap string cli.FlagValue) !! "hoard-config" = None \/
          (∅ : gmap string cli.FlagValue) !! "etl-config" = None) as Hm
    by (left; reflexivity).
  split; [exact Hm | ].
  exact (proj1 (@older_needs_both_configs sim.external sim.World sim.handler
                  etlmain.backlog ∅ [] sim.configured Hm)).
Defined.

Lemma referenceDay_five_am_witness :
  (0 <= time.nsec (time.mkTime 1641621600 0 sim.est) < 1000000000 /\
   time.zoneOffset sim.est (1641621600 - 5 * 3600) =
   time.zoneOffset sim.est 1641621600 /\
   -719467 <= time.localDay (time.In (time.mkTime 1641621600 0 sim.est) sim.est)
           <= 2932896)
  /\ time.localDay (time.In (time.mkTime 1641621600 0 sim.est) sim.est) = 19000
  /\ etlmain.referenceDay (time.mkTime 1641621600 0 sim.est) sim.est = 18999.
Proof.
  assert (0 <= time.nsec (time.mkTime 1641621600 0 sim.est) < 1000000000) as Hns
    by (cbn; lia).
  assert (time.zoneOffset sim.est
            (time.unixSec (time.mkTime 1641621600 0 sim.est) - 5 * 3600) =
          time.zoneOffset sim.est
            (time.unixSec (time.mkTime 1641621600 0 sim.est))) as Hfix
    by reflexivity.
  assert (-719467 <= time.localDay (time.In (time.mkTime 1641621600 0 sim.est) sim.est)
          <= 2932896) as Hrange
    by (vm_compute; split; discriminate).
  split; [split; [exact Hns | split; [exact Hfix | exact Hrange]] | ].
  split; [vm_compute; reflexivity | ].
  exact (referenceDay_five_am (time.mkTime 1641621600 0 sim.est) sim.est
           Hns Hfix Hrange).
Defined.
